(** * Historical weather from Open-Meteo: parameter validation and reshaping

    A shallow embedding of [get_historical_weather_at_given_coordinates]
    (src/scraper/get_historical_from_open-meteo.py, and its copy in
    src/scripts/get_open-meteo_data/get_historical.py) together with the
    library functions it calls: [datetime.date.fromisoformat] of CPython,
    [pandas.to_datetime], [pandas.Timedelta], [pandas.date_range],
    [pandas.DataFrame] and the accessors of the Open-Meteo response; and
    of the three scripts of the repository.

    Python's [float] is IEEE 754 binary64, which is Rocq's primitive
    [float]; strings are byte strings (the UTF-8 bytes CPython's parser
    reads); instants are whole seconds since the epoch, UTC.  What pandas
    does differently from one release to another is a parameter of the
    model ([Pandas.release]), and the properties hold for every
    release. *)

From Stdlib Require Import ZArith List String Ascii Bool Lia.
From Stdlib Require Import Floats.
Import ListNotations.

Set Warnings "-inexact-float".

Local Open Scope string_scope.
Local Open Scope Z_scope.

(** ** Exceptions and results *)

(** The exceptions that can leave the function and the scripts.
    [InvalidParameters] is the repository's own (src/scraper/exc.py);
    [ValueError], [IndexError] and [NameError] are Python's;
    [OutOfBoundsDatetime] is pandas'; [OtherError] stands for whatever
    else a library or the provider raises, tagged with where it comes
    from. *)
Inductive exn : Type :=
| InvalidParameters (msg : string)
| ValueError (msg : string)
| IndexError
| NameError (name : string)
| OutOfBoundsDatetime
| OtherError (origin : string).

Inductive result (A : Type) : Type :=
| Ok (a : A)
| Raise (e : exn).
Arguments Ok {A} a.
Arguments Raise {A} e.

Definition is_ok {A} (r : result A) : bool :=
  match r with Ok _ => true | Raise _ => false end.

(** ** [datetime.date] and [date.fromisoformat]

    Modelled on CPython's Modules/_datetimemodule.c, function by function.
    Since Python 3.11 [date.fromisoformat] reads the ten-character form
    YYYY-MM-DD, the basic form YYYYMMDD and the ISO week forms; before 3.11
    it read the ten-character form only. *)
Module Datetime.

Record date : Type := mkdate { year : Z; month : Z; day : Z }.

Definition MINYEAR : Z := 1.
Definition MAXYEAR : Z := 9999.

Definition is_leap (y : Z) : bool :=
  (Z.rem y 4 =? 0) && (negb (Z.rem y 100 =? 0) || (Z.rem y 400 =? 0)).

Definition _days_in_month : list Z :=
  [0; 31; 28; 31; 30; 31; 30; 31; 31; 30; 31; 30; 31].

Definition _days_before_month : list Z :=
  [0; 0; 31; 59; 90; 120; 151; 181; 212; 243; 273; 304; 334].

Definition days_in_month (y m : Z) : Z :=
  if (m =? 2) && is_leap y then 29 else nth (Z.to_nat m) _days_in_month 0.

Definition days_before_month (y m : Z) : Z :=
  let days := nth (Z.to_nat m) _days_before_month 0 in
  if (2 <? m) && is_leap y then days + 1 else days.

Definition days_before_year (y : Z) : Z :=
  let y1 := y - 1 in
  y1 * 365 + Z.quot y1 4 - Z.quot y1 100 + Z.quot y1 400.

Definition DI4Y : Z := 1461.
Definition DI100Y : Z := 36524.
Definition DI400Y : Z := 146097.

Definition ymd_to_ord (y m d : Z) : Z :=
  days_before_year y + days_before_month y m + d.

Definition weekday (y m d : Z) : Z :=
  Z.rem (ymd_to_ord y m d + 6) 7.

Definition ord_to_ymd (ordinal : Z) : Z * Z * Z :=
  let ordinal := ordinal - 1 in
  let n400 := Z.quot ordinal DI400Y in
  let n := Z.rem ordinal DI400Y in
  let y := n400 * 400 + 1 in
  let n100 := Z.quot n DI100Y in
  let n := Z.rem n DI100Y in
  let n4 := Z.quot n DI4Y in
  let n := Z.rem n DI4Y in
  let n1 := Z.quot n 365 in
  let n := Z.rem n 365 in
  let y := y + (n100 * 100 + n4 * 4 + n1) in
  if (n1 =? 4) || (n100 =? 4) then (y - 1, 12, 31)
  else
    let leapyear := (n1 =? 3) && (negb (n4 =? 24) || (n100 =? 3)) in
    let m := Z.shiftr (n + 50) 5 in
    let preceding :=
      nth (Z.to_nat m) _days_before_month 0
      + (if (2 <? m) && leapyear then 1 else 0) in
    if n <? preceding
    then let m := m - 1 in
         let preceding := preceding - days_in_month y m in
         (y, m, n - preceding + 1)
    else (y, m, n - preceding + 1).

Definition iso_week1_monday (y : Z) : Z :=
  let first_day := ymd_to_ord y 1 1 in
  let first_weekday := Z.rem (first_day + 6) 7 in
  let week1_monday := first_day - first_weekday in
  if 3 <? first_weekday then week1_monday + 7 else week1_monday.

(** [iso_to_ymd]: [None] stands for the negative return codes. *)
Definition iso_to_ymd (iso_year iso_week iso_day : Z) : option (Z * Z * Z) :=
  if (iso_year <? MINYEAR) || (MAXYEAR <? iso_year) then None
  else
    let out_of_range :=
      if (iso_week <=? 0) || (53 <=? iso_week) then
        if iso_week =? 53 then
          let first_weekday := weekday iso_year 1 1 in
          negb ((first_weekday =? 3)
                || ((first_weekday =? 2) && is_leap iso_year))
        else true
      else false in
    if out_of_range then None
    else if (iso_day <=? 0) || (8 <=? iso_day) then None
    else
      let day_1 := iso_week1_monday iso_year in
      let day_offset := (iso_week - 1) * 7 + iso_day - 1 in
      Some (ord_to_ymd (day_1 + day_offset)).

(** [parse_digits(ptr, var, num_digits)]: reads exactly [num_digits] ASCII
    digits, accumulating into [var]; the end of the string reads as the
    terminating NUL, which is no digit. *)
Fixpoint parse_digits (ptr : string) (var : Z) (num_digits : nat)
  {struct num_digits} : option (string * Z) :=
  match num_digits with
  | O => Some (ptr, var)
  | S n =>
      match ptr with
      | EmptyString => None
      | String c rest =>
          let tmp := Z.of_N (N_of_ascii c) - 48 in
          if (0 <=? tmp) && (tmp <=? 9)
          then parse_digits rest (var * 10 + tmp) n
          else None
      end
  end.

(** [*p == c] on a NUL-terminated buffer. *)
Definition peek_is (p : string) (c : ascii) : bool :=
  match p with
  | EmptyString => false
  | String c' _ => Ascii.eqb c' c
  end.

Definition advance (p : string) : string :=
  match p with
  | EmptyString => EmptyString
  | String _ rest => rest
  end.

(** [parse_isoformat_date]: year, an optional dash, then either a week
    date or month and day; what follows the day is not looked at. *)
Definition parse_isoformat_date (dtstr : string) : option (Z * Z * Z) :=
  match parse_digits dtstr 0 4 with
  | None => None
  | Some (p, y) =>
      let uses_separator := peek_is p "-"%char in
      let p := if uses_separator then advance p else p in
      if peek_is p "W"%char then
        let p := advance p in
        match parse_digits p 0 2 with
        | None => None
        | Some (p, iso_week) =>
            match p with
            | EmptyString => iso_to_ymd y iso_week 1
            | String _ _ =>
                if uses_separator && negb (peek_is p "-"%char) then None
                else
                  let p := if uses_separator then advance p else p in
                  match parse_digits p 0 1 with
                  | None => None
                  | Some (_, iso_day) => iso_to_ymd y iso_week iso_day
                  end
            end
        end
      else
        match parse_digits p 0 2 with
        | None => None
        | Some (p, m) =>
            if uses_separator && negb (peek_is p "-"%char) then None
            else
              let p := if uses_separator then advance p else p in
              match parse_digits p 0 2 with
              | None => None
              | Some (_, d) => Some (y, m, d)
              end
        end
  end.

(** [check_date_args], as a test: the year within 1 to 9999, the month
    within 1 to 12, the day within the month. *)
Definition check_date_args (y m d : Z) : bool :=
  (MINYEAR <=? y) && (y <=? MAXYEAR)
  && (1 <=? m) && (m <=? 12)
  && (1 <=? d) && (d <=? days_in_month y m).

(** [new_date]: a [ValueError] names the part out of range; the model
    keeps one message for the three. *)
Definition new_date (y m d : Z) : result date :=
  if check_date_args y m d then Ok (mkdate y m d)
  else Raise (ValueError "date value out of range").

Definition strlen (s : string) : Z := Z.of_nat (String.length s).

(** [date.fromisoformat] (Python 3.11 and later).  Every failure is a
    [ValueError]. *)
Definition fromisoformat (date_string : string) : result date :=
  let len := strlen date_string in
  if (len =? 7) || (len =? 8) || (len =? 10) then
    match parse_isoformat_date date_string with
    | Some (y, m, d) => new_date y m d
    | None => Raise (ValueError "Invalid isoformat string")
    end
  else Raise (ValueError "Invalid isoformat string").

(** [date.isoformat]: YYYY-MM-DD, zero padded. *)
Definition digit (n : Z) : ascii := ascii_of_N (Z.to_N (48 + n mod 10)).

Definition pad2 (n : Z) (k : string) : string :=
  String (digit (n / 10)) (String (digit n) k).

Definition pad4 (n : Z) (k : string) : string :=
  String (digit (n / 1000)) (String (digit (n / 100)) (pad2 n k)).

Definition isoformat (d : date) : string :=
  pad4 (year d) (String "-"%char (pad2 (month d) (String "-"%char (pad2 (day d) "")))).

(** Rich comparison of dates: lexicographic on year, month, day. *)
Definition date_ltb (a b : date) : bool :=
  (year a <? year b)
  || ((year a =? year b)
      && ((month a <? month b)
          || ((month a =? month b) && (day a <? day b)))).

Definition date_leb (a b : date) : bool := negb (date_ltb b a).

(** [date.toordinal]: the number of the day, 0001-01-01 being day 1. *)
Definition toordinal (d : date) : Z := ymd_to_ord (year d) (month d) (day d).

Definition valid_date (d : date) : Prop :=
  check_date_args (year d) (month d) (day d) = true.

End Datetime.

Import Datetime.

(** ** pandas: [to_datetime], [Timedelta], [date_range], [DataFrame]

    A pandas timestamp is an instant, here its count of nanoseconds since
    the epoch.  pandas is not one program.  Where its releases agree, and
    its int64 arithmetic is exact, the functions below are what pandas
    does; where the releases differ, or an int64 can overflow, they leave
    the answer to the installed [release]. *)
Module Pandas.

Definition Timestamp : Type := Z.

Definition NS_PER_S : Z := 1000000000.

(** The instant [t] seconds after the epoch. *)
Definition instant (t : Z) : Timestamp := t * NS_PER_S.

(** What an int64 holds beside the one value kept for not-a-time: as
    nanoseconds, 1677-09-21 to 2262-04-11. *)
Definition INT64_MAX : Z := 9223372036854775807.

Definition in_int64 (z : Z) : bool := (- INT64_MAX <=? z) && (z <=? INT64_MAX).

(** A scalar time: [pd.NaT] or a timestamp. *)
Inductive scalar_time : Type :=
| NaT
| At (t : Timestamp).

(** What the installed pandas does at the edge:
    - [to_datetime_beyond]: [pd.to_datetime(t, unit="s", utc=True)] for
      seconds whose nanoseconds do not fit (the releases 2 raise
      OutOfBoundsDatetime);
    - [Timedelta_beyond]: [pd.Timedelta(seconds=s)] for such seconds
      (none of which is an int32, as the interval of a response is);
    - [date_range_edge]: [pd.date_range] from an instant to itself (the
      releases 1.4 to 3.0 keep the one point whatever [inclusive] is,
      the release 3.1 does not), with a step of zero, or where the end
      given to [numpy.arange] or the span of the range does not fit. *)
Class release : Type := mkrelease {
  to_datetime_beyond : Z -> result scalar_time;
  Timedelta_beyond : Z -> result Z;
  date_range_edge : Timestamp -> Timestamp -> Z -> result (list Timestamp)
}.

(** The edge as the releases 2 have it: what does not fit is refused,
    except that the smallest int64 reads as not-a-time; a step of zero
    ends in a division by zero; a range from an instant to itself is that
    instant. *)
Definition pandas_2 : release :=
  {| to_datetime_beyond t :=
       if t =? - INT64_MAX - 1 then Ok NaT else Raise OutOfBoundsDatetime;
     Timedelta_beyond _ := Raise (OtherError "OutOfBoundsTimedelta");
     date_range_edge start end_ freq :=
       if freq =? 0 then Raise (OtherError "ZeroDivisionError")
       else if start =? end_ then Ok [start]
       else Raise (OtherError "OverflowError") |}.

(** [numpy.arange(b, e, stride)]: ceil((e - b) / stride) values, none when
    that is not positive. *)
Definition arange (b e stride : Z) : list Z :=
  map (fun i => b + Z.of_nat i * stride)
      (seq 0 (Z.to_nat (- ((b - e) / stride)))).

(** [generate_regular_range]: the end of the half-open [arange] is chosen
    such that the last multiple of the stride not past [iend] is kept. *)
Definition generate_regular_range (istart iend stride : Z) : list Z :=
  let b := istart in
  let e := b + (iend - b) / stride * stride + stride / 2 + 1 in
  arange b e stride.

(** Where [date_range] is the same in every release: the step is not
    zero, the ends differ, and both ends, the end given to [arange] and
    the span of the range fit. *)
Definition regular (start end_ freq : Z) : bool :=
  negb (freq =? 0) && negb (start =? end_)
  && in_int64 start && in_int64 end_
  && (let e := start + (end_ - start) / freq * freq + freq / 2 + 1 in
      in_int64 e && in_int64 (e - start)).

Section Release.

Context {pd : release}.

(** [pd.to_datetime(t, unit="s", utc=True)] for an int [t]. *)
Definition to_datetime (t : Z) : result scalar_time :=
  if in_int64 (t * NS_PER_S) then Ok (At (instant t))
  else to_datetime_beyond t.

(** [pd.Timedelta(seconds=s)] for an int [s], in nanoseconds. *)
Definition Timedelta (seconds : Z) : result Z :=
  if in_int64 (seconds * NS_PER_S) then Ok (seconds * NS_PER_S)
  else Timedelta_beyond seconds.

(** [pd.date_range(start, end, freq, inclusive="left")], as pandas has it
    since the keyword [inclusive] exists (1.4): not-a-time is refused at
    either end; the right end point is dropped when the range reaches
    it. *)
Definition date_range (start end_ : scalar_time) (freq : Z)
  : result (list Timestamp) :=
  match start, end_ with
  | At start, At end_ =>
      if regular start end_ freq then
        let values := generate_regular_range start end_ freq in
        if negb (Nat.eqb (List.length values) 0) && (last values 0 =? end_)
        then Ok (removelast values)
        else Ok values
      else date_range_edge start end_ freq
  | _, _ => Raise (ValueError "Neither `start` nor `end` can be NaT")
  end.

End Release.

(** The values a column is built from: an index of timestamps, an array
    of numbers, or a scalar, which the frame constructor repeats for every
    row. *)
Inductive column : Type :=
| DatetimeIndex (v : list Timestamp)
| ndarray (v : list float)
| int64 (v : list Z)
| scalar (z : Z).

(** The number of entries of an array. *)
Definition len (c : column) : nat :=
  match c with
  | DatetimeIndex v => List.length v
  | ndarray v => List.length v
  | int64 v => List.length v
  | scalar _ => 1
  end.

Definition is_scalar (c : column) : bool :=
  match c with
  | scalar _ => true
  | _ => false
  end.

Definition broadcast (n : nat) (c : column) : column :=
  match c with
  | scalar z => int64 (repeat z n)
  | _ => c
  end.

(** [c] can be a column of a frame of [n] rows. *)
Definition fits (n : nat) (c : column) : bool :=
  is_scalar c || Nat.eqb (len c) n.

(** A Python dict keeps its keys in insertion order; assignment to a key
    already present replaces the value in place. *)
Definition dict (V : Type) : Type := list (string * V).

Fixpoint setitem {V} (d : dict V) (k : string) (v : V) : dict V :=
  match d with
  | [] => [(k, v)]
  | (k', v') :: rest =>
      if String.eqb k' k then (k, v) :: rest
      else (k', v') :: setitem rest k v
  end.

(** A frame is its columns, in order; all of one length. *)
Definition DataFrame : Type := dict column.

(** [pd.DataFrame(data=d)] for a dict of one-dimensional arrays and
    scalars: columns in dict order; the arrays give the number of rows
    and are refused when their lengths differ; a scalar fills its
    column. *)
Definition mkDataFrame (data : dict column) : result DataFrame :=
  match data with
  | [] => Ok []
  | _ =>
      match filter (fun kc => negb (is_scalar (snd kc))) data with
      | [] =>
          Raise (ValueError "If using all scalar values, you must pass an index")
      | (_, c) :: rest =>
          if forallb (fun kc => Nat.eqb (len (snd kc)) (len c)) rest
          then Ok (map (fun kc => (fst kc, broadcast (len c) (snd kc))) data)
          else Raise (ValueError "All arrays must be of the same length")
      end
  end.

Definition column_names (df : DataFrame) : list string := map fst df.

Definition nrows (df : DataFrame) : nat :=
  match df with
  | [] => O
  | (_, c) :: _ => len c
  end.

Fixpoint getitem {V} (d : dict V) (k : string) : option V :=
  match d with
  | [] => None
  | (k', v) :: rest => if String.eqb k' k then Some v else getitem rest k
  end.

(** Entry [i] of a column of timestamps, and of a column of numbers. *)
Definition date_at (df : DataFrame) (k : string) (i : nat) : option Timestamp :=
  match getitem df k with
  | Some (DatetimeIndex v) => nth_error v i
  | _ => None
  end.

Definition value_at (df : DataFrame) (k : string) (i : nat) : option float :=
  match getitem df k with
  | Some (ndarray v) => nth_error v i
  | _ => None
  end.

(** Entry [i] of a column that a scalar filled. *)
Definition filled_at (df : DataFrame) (k : string) (i : nat) : option Z :=
  match getitem df k with
  | Some (int64 v) => nth_error v i
  | _ => None
  end.

End Pandas.

Import Pandas.

(** ** The Open-Meteo response (openmeteo_sdk) *)
Module OpenMeteo.

(** A variable of the response.  Its vector of values may be absent from
    the message. *)
Record VariableWithValues : Type := mkVariable {
  values : option (list float)
}.

(** A variable that carries the values [v]. *)
Definition with_values (v : list float) : VariableWithValues :=
  {| values := Some v |}.

(** [variable.ValuesAsNumpy()]: the values as an array, and the int 0 when
    the vector is absent. *)
Definition ValuesAsNumpy (v : VariableWithValues) : column :=
  match values v with
  | Some a => ndarray a
  | None => scalar 0
  end.

(** The hourly block: start, end and step of the time axis in seconds
    (two int64 and an int32 of the message), and one variable per
    requested field, in request order.  The accessor [Variables(j)] does
    not compare [j] with the length of the vector: past its end it reads
    whatever bytes of the message are there, which [past_the_end] stands
    for (an exception, or something that passes for a variable). *)
Record VariablesWithTime : Type := mkVariablesWithTime {
  Time : Z;
  TimeEnd : Z;
  Interval : Z;
  variables : list VariableWithValues;
  past_the_end : nat -> result VariableWithValues
}.

(** [hourly.Variables(j)] *)
Definition Variables (h : VariablesWithTime) (j : nat)
  : result VariableWithValues :=
  match nth_error (variables h) j with
  | Some v => Ok v
  | None => past_the_end h j
  end.

(** An hourly block of arrays, in a message with nothing readable past its
    variables. *)
Definition mkHourly (time time_end interval : Z) (arrays : list (list float))
  : VariablesWithTime :=
  {| Time := time;
     TimeEnd := time_end;
     Interval := interval;
     variables := map with_values arrays;
     past_the_end := fun _ => Raise (OtherError "openmeteo_sdk") |}.

Record WeatherApiResponse : Type := mkResponse {
  Latitude : float;
  Longitude : float;
  Elevation : float;
  Timezone : string;
  TimezoneAbbreviation : string;
  UtcOffsetSeconds : Z;
  Hourly : VariablesWithTime
}.

End OpenMeteo.

Import OpenMeteo.

(** ** The scraper *)
Module Scraper.

(** The request parameters, the dict [params] of the source. *)
Record params : Type := mkparams {
  p_latitude : float;
  p_longitude : float;
  p_start_date : string;
  p_end_date : string;
  p_hourly : list string
}.

(** The records the function hands to [logger.info]; a record that
    formats values of the response carries those values. *)
Inductive log_record : Type :=
| LogCalling
| LogQueryParameters
| LogCoordinates (lat lon : float)
| LogElevation (e : float)
| LogTimezone (tz abbreviation : string)
| LogUtcOffset (seconds : Z).

(** What the function does to the world, in order: it builds the cached
    HTTP session (which opens the on-disk cache of the given name), the
    retrying session and the client, writes log records, and calls the
    provider. *)
Inductive event : Type :=
| CachedSession (cache_name : string) (expire_after : Z)
| RetrySession (retries : Z) (backoff_factor : float)
| Client
| LoggerInfo (r : log_record)
| WeatherApi (url : string) (p : params).

(** A computation: the events so far, and a value or an exception. *)
Definition M (A : Type) : Type := (list event * result A)%type.

Definition ret {A} (a : A) : M A := ([], Ok a).

Definition bind {A B} (m : M A) (k : A -> M B) : M B :=
  match m with
  | (t, Ok a) => let (t', r) := k a in ((t ++ t')%list, r)
  | (t, Raise e) => (t, Raise e)
  end.

Definition emit (e : event) : M unit := ([e], Ok tt).

Definition lift {A} (r : result A) : M A := ([], r).

Notation "x <- m ;; k" := (bind m (fun x => k))
  (at level 61, m at next level, right associativity).
Notation "m ;;; k" := (bind m (fun _ => k))
  (at level 61, right associativity).

Definition bindr {A B} (r : result A) (k : A -> result B) : result B :=
  match r with
  | Ok a => k a
  | Raise e => Raise e
  end.

Notation "x <~ r ;; k" := (bindr r (fun x => k))
  (at level 61, r at next level, right associativity).

Definition default_fields : list string :=
  ["snowfall"; "wind_speed_10m"; "wind_gusts_10m"].

Definition url : string := "https://archive-api.open-meteo.com/v1/archive".

Definition latitude_message : string :=
  "Invalid latitude given! Latitude must be within -90 to 90".

Definition longitude_message : string :=
  "Invalid longitude given! Longitude must be within 0 to 180".

Definition date_format_message (start_date end_date : string) : string :=
  ("Invalid start_date " ++ start_date ++ " or end_date " ++ end_date
   ++ " found. Please given the start and end dates in ISO format, i.e. YYYY-MM-DD")%string.

Definition date_order_message : string :=
  "End date cannot be before start date!".

(** The [try] block of the source: both dates are parsed, the start date
    first; a [ValueError] of either becomes [InvalidParameters]. *)
Definition parse_dates (start_date end_date : string) : result (date * date) :=
  match (start_date_parsed <~ fromisoformat start_date ;;
         end_date_parsed <~ fromisoformat end_date ;;
         Ok (start_date_parsed, end_date_parsed)) with
  | Raise (ValueError _) =>
      Raise (InvalidParameters (date_format_message start_date end_date))
  | r => r
  end.

(** The parameter checks (the four [raise InvalidParameters] of the source,
    in source order).  [x > y] on floats is [y < x]. *)
Definition validate_parameters
  (latitude longitude : float) (start_date end_date : string)
  : result (date * date) :=
  if ((latitude <? -90) || (90 <? latitude))%float
  then Raise (InvalidParameters latitude_message)
  else if ((longitude <? 0) || (180 <? longitude))%float
  then Raise (InvalidParameters longitude_message)
  else
    parsed <~ parse_dates start_date end_date ;;
    let '(start_date_parsed, end_date_parsed) := parsed in
    if date_ltb end_date_parsed start_date_parsed
    then Raise (InvalidParameters date_order_message)
    else Ok (start_date_parsed, end_date_parsed).

(** [hourly.Variables(j).ValuesAsNumpy()] *)
Definition values_as_numpy (hourly : VariablesWithTime) (j : nat)
  : result column :=
  v <~ Variables hourly j ;;
  Ok (ValuesAsNumpy v).

Section Release.

Context {pd : release}.

(** The time axis of the hourly block: the expression
    [pd.date_range(start=pd.to_datetime(hourly.Time(), unit="s", utc=True),
    end=pd.to_datetime(hourly.TimeEnd(), unit="s", utc=True),
    freq=pd.Timedelta(seconds=hourly.Interval()), inclusive="left")],
    its arguments evaluated from left to right. *)
Definition hourly_date_range (hourly : VariablesWithTime)
  : result (list Timestamp) :=
  start <~ to_datetime (Time hourly) ;;
  end_ <~ to_datetime (TimeEnd hourly) ;;
  freq <~ Timedelta (Interval hourly) ;;
  date_range start end_ freq.

(** The reshaping of the hourly block into a frame.  The three arrays are
    read at the fixed positions 0, 1 and 2 and stored under fixed names. *)
Definition hourly_dataframe (hourly : VariablesWithTime) : result DataFrame :=
  hourly_snowfall <~ values_as_numpy hourly 0 ;;
  hourly_wind_speed_10m <~ values_as_numpy hourly 1 ;;
  hourly_wind_gusts_10m <~ values_as_numpy hourly 2 ;;
  date <~ hourly_date_range hourly ;;
  let hourly_data := [("date", DatetimeIndex date)] in
  let hourly_data := setitem hourly_data "snowfall" hourly_snowfall in
  let hourly_data :=
    setitem hourly_data "wind_speed_10m" hourly_wind_speed_10m in
  let hourly_data :=
    setitem hourly_data "wind_gusts_10m" hourly_wind_gusts_10m in
  mkDataFrame hourly_data.

End Release.

(** [responses[0]] *)
Definition first_response (responses : list WeatherApiResponse)
  : result WeatherApiResponse :=
  match responses with
  | [] => Raise IndexError
  | r :: _ => Ok r
  end.

Section Provider.

Context {pd : release}.

(** The provider behind [openmeteo.weather_api]: for a request it answers
    with the responses, one per location, or raises. *)
Variable weather_api : string -> params -> result (list WeatherApiResponse).

Definition call_weather_api (u : string) (p : params)
  : M (list WeatherApiResponse) :=
  ([WeatherApi u p], weather_api u p).

Definition get_historical_weather_at_given_coordinates
  (latitude longitude : float) (start_date end_date : string)
  (fields : list string) : M DataFrame :=
  emit (CachedSession ".cache" (-1)) ;;;
  emit (RetrySession 5 0.2%float) ;;;
  emit Client ;;;
  _ <- lift (validate_parameters latitude longitude start_date end_date) ;;
  let params :=
    {| p_latitude := latitude;
       p_longitude := longitude;
       p_start_date := start_date;
       p_end_date := end_date;
       p_hourly := fields |} in
  emit (LoggerInfo LogCalling) ;;;
  responses <- call_weather_api url params ;;
  response <- lift (first_response responses) ;;
  emit (LoggerInfo LogQueryParameters) ;;;
  emit (LoggerInfo (LogCoordinates (Latitude response) (Longitude response))) ;;;
  emit (LoggerInfo (LogElevation (Elevation response))) ;;;
  emit (LoggerInfo (LogTimezone (Timezone response)
                                (TimezoneAbbreviation response))) ;;;
  emit (LoggerInfo (LogUtcOffset (UtcOffsetSeconds response))) ;;;
  lift (hourly_dataframe (Hourly response)).

End Provider.

End Scraper.

Import Scraper.

(** ** The words of the specification *)

(** Latitude within -90 to 90 and longitude within 0 to 180, bounds
    included; and their strict complements. *)
Definition latitude_in_range (x : float) : bool :=
  ((-90 <=? x) && (x <=? 90))%float.

Definition longitude_in_range (x : float) : bool :=
  ((0 <=? x) && (x <=? 180))%float.

Definition latitude_out_of_range (x : float) : bool :=
  ((x <? -90) || (90 <? x))%float.

Definition longitude_out_of_range (x : float) : bool :=
  ((x <? 0) || (180 <? x))%float.

(** [s] is the ISO 8601 calendar date YYYY-MM-DD of the real calendar
    day [d]. *)
Definition iso_calendar_date (s : string) (d : date) : Prop :=
  valid_date d /\ s = isoformat d.

(** The undelimited (basic) form YYYYMMDD of a day. *)
Definition basic_format (d : date) : string :=
  pad4 (year d) (pad2 (month d) (pad2 (day d) "")).

(** A string of ten characters with dashes in the fifth and the eighth
    place: the shape of YYYY-MM-DD. *)
Definition dashed (y1 y2 y3 y4 m1 m2 d1 d2 : ascii) : string :=
  String y1 (String y2 (String y3 (String y4 (String "-"
    (String m1 (String m2 (String "-" (String d1 (String d2 "")))))))))%char.

(** A provider for the examples: it answers every request with one
    location whose hourly block holds two hours from 2024-01-01T00:00Z and
    one array per requested field, in request order. *)
Definition archive_values (field : string) : list float :=
  if String.eqb field "snowfall" then [0; 0.7]%float
  else if String.eqb field "wind_speed_10m" then [11.5; 12.5]%float
  else if String.eqb field "wind_gusts_10m" then [30; 31]%float
  else [1; 2]%float.

Definition example_api (_ : string) (p : params)
  : result (list WeatherApiResponse) :=
  Ok [ {| Latitude := p_latitude p;
          Longitude := p_longitude p;
          Elevation := 25;
          Timezone := "GMT";
          TimezoneAbbreviation := "GMT";
          UtcOffsetSeconds := 0;
          Hourly := mkHourly 1704067200 1704074400 3600
                             (map archive_values (p_hourly p)) |} ].

(** The default fields with the first two exchanged. *)
Definition swapped_fields : list string :=
  ["wind_speed_10m"; "snowfall"; "wind_gusts_10m"].

(** A provider whose hourly block is empty: it starts and ends at
    2024-01-01T00:00Z and holds three arrays of no values. *)
Definition empty_api (_ : string) (p : params)
  : result (list WeatherApiResponse) :=
  Ok [ {| Latitude := p_latitude p;
          Longitude := p_longitude p;
          Elevation := 25;
          Timezone := "GMT";
          TimezoneAbbreviation := "GMT";
          UtcOffsetSeconds := 0;
          Hourly := mkHourly 1704067200 1704067200 3600 [[]; []; []] |} ].

(** A provider whose second array has one value more than there are
    hours. *)
Definition ragged_api (_ : string) (p : params)
  : result (list WeatherApiResponse) :=
  Ok [ {| Latitude := p_latitude p;
          Longitude := p_longitude p;
          Elevation := 25;
          Timezone := "GMT";
          TimezoneAbbreviation := "GMT";
          UtcOffsetSeconds := 0;
          Hourly := mkHourly 1704067200 1704074400 3600
                             [[0; 0.7]; [11.5; 12.5; 13.5]; [30; 31]]%float |} ].

(** A provider that cannot be reached, and one that answers with no
    location. *)
Definition unreachable_api (_ : string) (_ : params)
  : result (list WeatherApiResponse) :=
  Raise (OtherError "openmeteo_requests").

Definition silent_api (_ : string) (_ : params)
  : result (list WeatherApiResponse) :=
  Ok [].

(** What the claims say of a frame.

    [whole_column n c col]: the column [col] of a frame of [n] rows is the
    whole of what was read, [c]: an array of [n] values as it is, or the
    scalar in every row. *)
Definition whole_column (n : nat) (c col : column) : Prop :=
  col = broadcast n c /\ (is_scalar c = false -> len c = n).

(** A variable that carries [n] values, or no vector of values at all. *)
Definition has_no_values_or (n : nat) (x : VariableWithValues) : bool :=
  match values x with
  | Some a => Nat.eqb (List.length a) n
  | None => true
  end.

Definition no_values_or (n : nat) (x : VariableWithValues) : Prop :=
  match values x with
  | Some a => List.length a = n
  | None => True
  end.

(** An array of a length other than [n]. *)
Definition array_of_other_length (n : nat) (c : column) : Prop :=
  exists a, c = ndarray a /\ List.length a <> n.

(** [complete_table h df]: [df] holds the whole time axis of the hourly
    block [h] and the whole of what is read at the positions 0, 1 and 2,
    all of one length. *)
Definition complete_table {pd : release}
  (h : VariablesWithTime) (df : DataFrame) : Prop :=
  exists ts c0 c1 c2 col0 col1 col2,
    hourly_date_range h = Ok ts
    /\ values_as_numpy h 0 = Ok c0
    /\ values_as_numpy h 1 = Ok c1
    /\ values_as_numpy h 2 = Ok c2
    /\ df = [("date", DatetimeIndex ts);
             ("snowfall", col0);
             ("wind_speed_10m", col1);
             ("wind_gusts_10m", col2)]
    /\ whole_column (List.length ts) c0 col0
    /\ whole_column (List.length ts) c1 col1
    /\ whole_column (List.length ts) c2 col2.

(** Column [i + 1] of the frame is named after field [i] of the request
    and holds what is read at position [i] of the response. *)
Definition columns_follow_request
  (fields : list string) (h : VariablesWithTime) (df : DataFrame) : Prop :=
  column_names df = "date" :: fields
  /\ forall i f, nth_error fields i = Some f ->
                 exists c, values_as_numpy h i = Ok c
                           /\ getitem df f = Some (broadcast (nrows df) c).

(** The table the claims speak of: the whole time axis, and for every
    requested field, in request order, a column of the field's name
    holding the whole array of values of the variable at the field's
    position. *)
Definition table_of_arrays {pd : release}
  (fields : list string) (h : VariablesWithTime) (df : DataFrame) : Prop :=
  exists ts,
    hourly_date_range h = Ok ts
    /\ getitem df "date" = Some (DatetimeIndex ts)
    /\ forall i f, nth_error fields i = Some f ->
                   exists v a, nth_error (variables h) i = Some v
                               /\ values v = Some a
                               /\ List.length a = List.length ts
                               /\ getitem df f = Some (ndarray a).

(** The malformed response of the claims: the array of some variable has
    a length other than the number of generated instants. *)
Definition length_mismatch {pd : release} (h : VariablesWithTime) : Prop :=
  exists ts j v a,
    hourly_date_range h = Ok ts
    /\ nth_error (variables h) j = Some v
    /\ values v = Some a
    /\ List.length a <> List.length ts.

(** The time axis is one that nanosecond timestamps hold in every
    release: with one step to spare at either end it lies between
    -9223372036 and 9223372036 seconds from the epoch (1677-09-21 and
    2262-04-11), and with one step more it spans no more than 9223372036
    seconds. *)
Definition within_nanoseconds (h : VariablesWithTime) : Prop :=
  -9223372036 <= Z.min (Time h) (TimeEnd h) - Z.abs (Interval h)
  /\ Z.max (Time h) (TimeEnd h) + Z.abs (Interval h) <= 9223372036
  /\ Z.abs (TimeEnd h - Time h) + Z.abs (Interval h) <= 9223372036.

(** More providers for the examples.  [answer p h]: the one location of
    the request [p] with the hourly block [h]. *)
Definition answer (p : params) (h : VariablesWithTime)
  : result (list WeatherApiResponse) :=
  Ok [ {| Latitude := p_latitude p;
          Longitude := p_longitude p;
          Elevation := 25;
          Timezone := "GMT";
          TimezoneAbbreviation := "GMT";
          UtcOffsetSeconds := 0;
          Hourly := h |} ].

(** The default fields and one more. *)
Definition four_fields : list string := (default_fields ++ ["rain"])%list.

(** A provider whose fourth array is one value short of the two hours. *)
Definition short_fourth_api (_ : string) (p : params)
  : result (list WeatherApiResponse) :=
  answer p (mkHourly 1704067200 1704074400 3600
                     [[0; 0.7]; [11.5; 12.5]; [30; 31]; [5]]%float).

(** A provider whose second variable carries no values. *)
Definition absent_api (_ : string) (p : params)
  : result (list WeatherApiResponse) :=
  answer p {| Time := 1704067200;
              TimeEnd := 1704074400;
              Interval := 3600;
              variables := [with_values [0; 0.7]%float;
                            mkVariable None;
                            with_values [30; 31]%float];
              past_the_end := fun _ => Raise (OtherError "openmeteo_sdk") |}.

(** A provider whose hourly block runs backwards: two hours down from
    2024-01-01T02:00Z, in steps of minus one hour. *)
Definition backward_api (_ : string) (p : params)
  : result (list WeatherApiResponse) :=
  answer p (mkHourly 1704074400 1704067200 (-3600)
                     (map archive_values (p_hourly p))).

(** A provider whose step is zero, and one whose two hours are of the
    year 2286. *)
Definition still_api (_ : string) (p : params)
  : result (list WeatherApiResponse) :=
  answer p (mkHourly 1704067200 1704067200 0
                     (map archive_values (p_hourly p))).

Definition far_api (_ : string) (p : params)
  : result (list WeatherApiResponse) :=
  answer p (mkHourly 10000000000 10000007200 3600
                     (map archive_values (p_hourly p))).

(** The three events every call starts with. *)
Definition client_setup : list event :=
  [CachedSession ".cache" (-1); RetrySession 5 0.2%float; Client].

(** ** The batch script

    The [__main__] block of src/scripts/get_open-meteo_data/get_historical.py:
    it loads the YAML configuration, and for every configured airport, in
    the order of the mapping, calls the function with the default fields,
    makes the airport's directory when it is not there and writes the
    frame as CSV. *)
Module Driver.

(** Paths are kept as the script builds them: the directory of the
    script, that of the configuration, and [p / segment]. *)
Inductive path : Type :=
| ScriptDirectory
| ConfigDirectory
| Div (p : path) (segment : string).

(** The loaded configuration is a mapping; a key it lacks is [None].  An
    airport's location is a mapping of the same kind.  The two dates are
    strings, as the function asks of its callers, and the airports are
    the items of their mapping, in its order. *)
Record location : Type := mklocation {
  loc_latitude : option float;
  loc_longitude : option float
}.

Record config : Type := mkconfig {
  cfg_export_parent_path : option string;
  cfg_start_date : option string;
  cfg_end_date : option string;
  cfg_selected_airports : option (list (string * location))
}.

(** The script's exceptions: those of the call and of the libraries, and
    the [KeyError] of a missing key. *)
Inductive script_exn : Type :=
| Exn (e : exn)
| KeyError (key : string).

Inductive run (A : Type) : Type :=
| Returned (a : A)
| Raised (e : script_exn).
Arguments Returned {A} a.
Arguments Raised {A} e.

Inductive script_log : Type :=
| LogLoadingConfig
| LogStartAirport (selected_airport : string).

(** What the script does, in order: its own log records, the reading of
    the configuration, the events of each call of the function, and the
    file system operations ([df.to_csv(path, index=False)] for the
    last). *)
Inductive script_event : Type :=
| Info (r : script_log)
| LoadYaml (p : path)
| InCall (e : event)
| PathExists (p : path) (answer : bool)
| MakeDirs (p : path)
| ToCsv (p : path) (df : DataFrame).

Definition config_path : string := "config/get_historical_weather.yaml".

Definition save_dir (export_parent_folder selected_airport : string) : path :=
  Div ScriptDirectory (export_parent_folder ++ "/" ++ selected_airport)%string.

Definition csv_name (selected_airport start_date end_date : string) : string :=
  ("airport_" ++ selected_airport ++ "_weather_" ++ start_date ++ "_to_"
   ++ end_date ++ ".csv")%string.

Definition csv_path
  (export_parent_folder selected_airport start_date end_date : string) : path :=
  Div (save_dir export_parent_folder selected_airport)
      (csv_name selected_airport start_date end_date).

(** [d[key]] *)
Definition subscript {A} (value : option A) (key : string) : run A :=
  match value with
  | Some a => Returned a
  | None => Raised (KeyError key)
  end.

Section World.

Context {pd : release}.

(** The provider, and the world the script runs in: what the configuration
    file holds, and how the file system answers, given all that has
    happened so far. *)
Variable weather_api : string -> params -> result (list WeatherApiResponse).
Variable load_yaml : path -> result config.
Variable path_exists : list script_event -> path -> bool.
Variable makedirs : list script_event -> path -> result unit.
Variable to_csv : list script_event -> path -> DataFrame -> result unit.

(** The body of the loop, after the events [history]; it gives the events
    up to its end, and whether it ended normally. *)
Definition one_airport
  (export_parent_folder start_date end_date : string)
  (history : list script_event) (item : string * location)
  : list script_event * run unit :=
  let '(selected_airport, loc) := item in
  let history := (history ++ [Info (LogStartAirport selected_airport)])%list in
  match subscript (loc_latitude loc) "latitude" with
  | Raised e => (history, Raised e)
  | Returned latitude =>
  match subscript (loc_longitude loc) "longitude" with
  | Raised e => (history, Raised e)
  | Returned longitude =>
  let '(events, r) :=
    get_historical_weather_at_given_coordinates
      weather_api latitude longitude start_date end_date default_fields in
  let history := (history ++ map InCall events)%list in
  match r with
  | Raise e => (history, Raised (Exn e))
  | Ok df =>
  let dir := save_dir export_parent_folder selected_airport in
  let file :=
    csv_path export_parent_folder selected_airport start_date end_date in
  let answer := path_exists history dir in
  let history := (history ++ [PathExists dir answer])%list in
  let write (history : list script_event) :=
    match to_csv history file df with
    | Raise e => ((history ++ [ToCsv file df])%list, Raised (Exn e))
    | Ok _ => ((history ++ [ToCsv file df])%list, Returned tt)
    end in
  if answer then write history
  else
    match makedirs history dir with
    | Raise e => ((history ++ [MakeDirs dir])%list, Raised (Exn e))
    | Ok _ => write (history ++ [MakeDirs dir])%list
    end
  end end end.

(** The [for] loop: an exception ends it. *)
Fixpoint for_each_airport
  (export_parent_folder start_date end_date : string)
  (history : list script_event) (items : list (string * location))
  : list script_event * run unit :=
  match items with
  | [] => (history, Returned tt)
  | item :: rest =>
      match one_airport export_parent_folder start_date end_date
                        history item with
      | (history, Returned _) =>
          for_each_airport export_parent_folder start_date end_date
                           history rest
      | (history, Raised e) => (history, Raised e)
      end
  end.

(** The script. *)
Definition main : list script_event * run unit :=
  let history := [Info LogLoadingConfig;
                  LoadYaml (Div ConfigDirectory config_path)] in
  match load_yaml (Div ConfigDirectory config_path) with
  | Raise e => (history, Raised (Exn e))
  | Ok config =>
  match subscript (cfg_export_parent_path config) "export_parent_path" with
  | Raised e => (history, Raised e)
  | Returned export_parent_folder =>
  match subscript (cfg_start_date config) "start_date" with
  | Raised e => (history, Raised e)
  | Returned start_date =>
  match subscript (cfg_end_date config) "end_date" with
  | Raised e => (history, Raised e)
  | Returned end_date =>
  match subscript (cfg_selected_airports config) "selected_airports" with
  | Raised e => (history, Raised e)
  | Returned selected_airports =>
      for_each_airport export_parent_folder start_date end_date
                       history selected_airports
  end end end end end.

End World.

(** The files written (the calls of [to_csv]), in order. *)
Fixpoint written (trace : list script_event) : list (path * DataFrame) :=
  match trace with
  | [] => []
  | ToCsv p df :: rest => (p, df) :: written rest
  | _ :: rest => written rest
  end.

(** The requests made, in order. *)
Fixpoint requested (trace : list script_event) : list params :=
  match trace with
  | [] => []
  | InCall (WeatherApi _ p) :: rest => p :: requested rest
  | _ :: rest => requested rest
  end.

End Driver.

(** ** Words for the batch script *)
Module DriverWords.

Import Driver.

(** What the script is expected to do for an airport: the request it makes
    when the airport has both coordinates and the parameters pass the
    checks, and the file it writes when the call returns a frame. *)
Definition expected_request
  (start_date end_date : string) (item : string * location) : option params :=
  match loc_latitude (snd item), loc_longitude (snd item) with
  | Some latitude, Some longitude =>
      if is_ok (validate_parameters latitude longitude start_date end_date)
      then Some (mkparams latitude longitude start_date end_date
                          default_fields)
      else None
  | _, _ => None
  end.

Definition expected_file {pd : release}
  (weather_api : string -> params -> result (list WeatherApiResponse))
  (export_parent_folder start_date end_date : string)
  (item : string * location) : option (path * DataFrame) :=
  match loc_latitude (snd item), loc_longitude (snd item) with
  | Some latitude, Some longitude =>
      match snd (get_historical_weather_at_given_coordinates
                   weather_api latitude longitude start_date end_date
                   default_fields) with
      | Ok df =>
          Some (csv_path export_parent_folder (fst item) start_date end_date,
                df)
      | Raise _ => None
      end
  | _, _ => None
  end.

(** The dates of a configuration that no coordinates can save. *)
Definition dates_rejected (start_date end_date : string) : Prop :=
  is_ok (fromisoformat start_date) = false
  \/ is_ok (fromisoformat end_date) = false
  \/ exists s e, fromisoformat start_date = Ok s
                 /\ fromisoformat end_date = Ok e
                 /\ date_ltb e s = true.

(** A disk on which nothing exists yet and nothing fails. *)
Definition nothing_exists (_ : list script_event) (_ : path) : bool := false.
Definition makedirs_ok (_ : list script_event) (_ : path) : result unit :=
  Ok tt.
Definition to_csv_ok (_ : list script_event) (_ : path) (_ : DataFrame)
  : result unit := Ok tt.

Definition at_coordinates (latitude longitude : float) : location :=
  mklocation (Some latitude) (Some longitude).

Definition amsterdam : string * location :=
  ("AMS", at_coordinates 52.31 4.76).
Definition frankfurt : string * location :=
  ("FRA", at_coordinates 50.03 8.57).
Definition new_york : string * location :=
  ("JFK", at_coordinates 40.64 (-73.78)).

Definition example_config
  (start_date end_date : string) (airports : list (string * location))
  : config :=
  mkconfig (Some "data") (Some start_date) (Some end_date) (Some airports).

Definition example_main {pd : release} (c : config)
  : list script_event * run unit :=
  main example_api (fun _ => Ok c) nothing_exists makedirs_ok to_csv_ok.

Definition opening : list script_event :=
  [Info LogLoadingConfig; LoadYaml (Div ConfigDirectory config_path)].

Section Turns.

Context {pd : release}.
Variable weather_api : string -> params -> result (list WeatherApiResponse).
Variables export_parent_folder start_date end_date : string.

Abbreviation the_call latitude longitude :=
  (get_historical_weather_at_given_coordinates
     weather_api latitude longitude start_date end_date default_fields).
Abbreviation the_dir item := (save_dir export_parent_folder (fst item)).
Abbreviation the_file item :=
  (csv_path export_parent_folder (fst item) start_date end_date).

(** One turn of the loop, by cases: the events it adds, and its end. *)
Inductive turn (item : string * location)
  : list script_event -> run unit -> Prop :=
| turn_no_latitude :
    loc_latitude (snd item) = None ->
    turn item [Info (LogStartAirport (fst item))]
         (Raised (KeyError "latitude"))
| turn_no_longitude latitude :
    loc_latitude (snd item) = Some latitude ->
    loc_longitude (snd item) = None ->
    turn item [Info (LogStartAirport (fst item))]
         (Raised (KeyError "longitude"))
| turn_call_raises latitude longitude events e :
    loc_latitude (snd item) = Some latitude ->
    loc_longitude (snd item) = Some longitude ->
    the_call latitude longitude = (events, Raise e) ->
    turn item (Info (LogStartAirport (fst item)) :: map InCall events)
         (Raised (Exn e))
| turn_makedirs_raises latitude longitude events df e :
    loc_latitude (snd item) = Some latitude ->
    loc_longitude (snd item) = Some longitude ->
    the_call latitude longitude = (events, Ok df) ->
    turn item
         (Info (LogStartAirport (fst item)) :: map InCall events
          ++ [PathExists (the_dir item) false; MakeDirs (the_dir item)])
         (Raised (Exn e))
| turn_written latitude longitude events df answer r :
    loc_latitude (snd item) = Some latitude ->
    loc_longitude (snd item) = Some longitude ->
    the_call latitude longitude = (events, Ok df) ->
    (r = Returned tt \/ exists e, r = Raised (Exn e)) ->
    turn item
         (Info (LogStartAirport (fst item)) :: map InCall events
          ++ PathExists (the_dir item) answer
             :: (if answer then [] else [MakeDirs (the_dir item)])
          ++ [ToCsv (the_file item) df])
         r.

(** The loop: turns that end normally, up to the first that does not. *)
Inductive turns : list (string * location)
                  -> list script_event -> run unit -> Prop :=
| turns_done : turns [] [] (Returned tt)
| turns_stop item rest t e :
    turn item t (Raised e) -> turns (item :: rest) t (Raised e)
| turns_next item rest t t' r :
    turn item t (Returned tt) -> turns rest t' r ->
    turns (item :: rest) (t ++ t') r.

End Turns.

End DriverWords.

(** The number of steps of [s] that start in the half-open span from [t0]
    to [t1]. *)
Definition steps_before (t0 t1 s : Z) : nat := Z.to_nat (- ((t0 - t1) / s)).

(** A provider whose hourly block ends half an hour after its second
    hour. *)
Definition late_api (_ : string) (p : params)
  : result (list WeatherApiResponse) :=
  Ok [ {| Latitude := p_latitude p;
          Longitude := p_longitude p;
          Elevation := 25;
          Timezone := "GMT";
          TimezoneAbbreviation := "GMT";
          UtcOffsetSeconds := 0;
          Hourly := mkHourly 1704067200 1704072600 3600
                             (map archive_values (p_hourly p)) |} ].

(** ** The forecast example

    The module-level code of
    src/scripts/open-meteo_official/official_forecast_example.py: one
    request for the visibility at a fixed place, four printed lines about
    the first response, and its hourly block printed as a frame of two
    columns; then, when the file is run as a script, the block under
    [if __name__ == '__main__'], which uses names the file never binds. *)
Module ForecastExample.

Record forecast_params : Type := mkforecast_params {
  f_latitude : float;
  f_longitude : float;
  f_hourly : string
}.

Inductive printed : Type :=
| Coordinates (lat lon : float)
| ElevationLine (e : float)
| TimezoneLine (tz abbreviation : string)
| UtcOffsetLine (seconds : Z)
| Frame (df : DataFrame).

(** The client set-up (with the events of the scraper), the request, and
    what is printed. *)
Inductive example_event : Type :=
| Setup (e : event)
| Request (url : string) (p : forecast_params)
| Print (o : printed).

Definition forecast_url : string := "https://api.open-meteo.com/v1/forecast".

Definition forecast_request : forecast_params :=
  {| f_latitude := 52.52; f_longitude := 13.41; f_hourly := "visibility" |}.

Section Provider.

Context {pd : release}.

(** The frame of the example: the time axis and the first array. *)
Definition visibility_dataframe (hourly : VariablesWithTime)
  : result DataFrame :=
  hourly_visibility <~ values_as_numpy hourly 0 ;;
  date <~ hourly_date_range hourly ;;
  let hourly_data := [("date", DatetimeIndex date)] in
  let hourly_data := setitem hourly_data "visibility" hourly_visibility in
  mkDataFrame hourly_data.

Variable weather_api
  : string -> forecast_params -> result (list WeatherApiResponse).

(** The module-level code, lines 10 to 45. *)
Definition module_level : list example_event * result DataFrame :=
  let trace :=
    [Setup (CachedSession ".cache" 3600);
     Setup (RetrySession 5 0.2%float);
     Setup Client;
     Request forecast_url forecast_request] in
  match (responses <~ weather_api forecast_url forecast_request ;;
         first_response responses) with
  | Raise e => (trace, Raise e)
  | Ok response =>
      let trace :=
        (trace
         ++ [Print (Coordinates (Latitude response) (Longitude response));
             Print (ElevationLine (Elevation response));
             Print (TimezoneLine (Timezone response)
                                 (TimezoneAbbreviation response));
             Print (UtcOffsetLine (UtcOffsetSeconds response))])%list in
      match visibility_dataframe (Hourly response) with
      | Raise e => (trace, Raise e)
      | Ok hourly_dataframe =>
          ((trace ++ [Print (Frame hourly_dataframe)])%list,
           Ok hourly_dataframe)
      end
  end.

(** The block under [if __name__ == '__main__'], lines 48 to 60: it binds
    three constants, and its fourth statement evaluates [dt], a name the
    file never binds (as it does not bind [relativedelta], [directory],
    [yaml] and [SafeLoader] further on). *)
Definition main_block : result unit := Raise (NameError "dt").

(** The file, run under the module name [name]: as a script ("__main__")
    or imported. *)
Definition example (name : string) : list example_event * result DataFrame :=
  match module_level with
  | (trace, Ok hourly_dataframe) =>
      if String.eqb name "__main__"
      then (trace, _ <~ main_block ;; Ok hourly_dataframe)
      else (trace, Ok hourly_dataframe)
  | (trace, Raise e) => (trace, Raise e)
  end.

End Provider.

(** An answer for the examples: two values over an hourly block that ends
    half an hour after its second hour. *)
Definition hazy_api (_ : string) (p : forecast_params)
  : result (list WeatherApiResponse) :=
  Ok [mkResponse (f_latitude p) (f_longitude p) 38 "GMT" "GMT" 0
        (mkHourly 1704067200 1704072600 3600 [[24140; 18000]%float])].

End ForecastExample.

(** ** The plain HTTP script

    src/scripts/bing_solution/get_historical.py: one GET request; for the
    status 200 the days of the body are printed, one line each; for any
    other status one line with the status.  The body is taken to be a
    mapping from keys to lists of days, a day being a mapping from keys to
    values of some kind. *)
Module PlainRequest.

Record request_params : Type := mkrequest_params {
  q_lat : float;
  q_lon : float;
  q_start : string;
  q_end : string;
  q_vars : string
}.

(** [sep.join(items)] *)
Fixpoint join (sep : string) (items : list string) : string :=
  match items with
  | [] => ""
  | [x] => x
  | x :: rest => (x ++ sep ++ join sep rest)%string
  end.

Definition API_URL : string := "https://api.open-meteo.com/v1/archive".

Definition weather_variables : list string :=
  ["Snowfall"; "Wind Speed (10 m)"].

Definition request : request_params :=
  {| q_lat := 51.5074;
     q_lon := -0.1278;
     q_start := "2023-01-01";
     q_end := "2023-01-31";
     q_vars := join "," weather_variables |}.

Section Body.

(** The values a day holds. *)
Variable V : Type.

Definition day : Type := dict V.

Record response : Type := mkresponse {
  status_code : Z;
  json : result (dict (list day))
}.

Inductive line : Type :=
| DayLine (date snowfall windspeed : V)
| ErrorLine (status : Z).

Inductive request_event : Type :=
| Get (url : string) (p : request_params)
| PrintLine (l : line).

(** The loop over the days: the lines printed, and how it ended. *)
Fixpoint print_days (days : list day) : list line * Driver.run unit :=
  match days with
  | [] => ([], Driver.Returned tt)
  | d :: rest =>
      match Driver.subscript (getitem d "date") "date" with
      | Driver.Raised e => ([], Driver.Raised e)
      | Driver.Returned date =>
      match Driver.subscript (getitem d "Snowfall") "Snowfall" with
      | Driver.Raised e => ([], Driver.Raised e)
      | Driver.Returned snowfall =>
      match Driver.subscript (getitem d "Wind Speed (10 m)")
                             "Wind Speed (10 m)" with
      | Driver.Raised e => ([], Driver.Raised e)
      | Driver.Returned windspeed =>
          let '(lines, r) := print_days rest in
          (DayLine date snowfall windspeed :: lines, r)
      end end end
  end.

Variable requests_get : string -> request_params -> result response.

Definition script : list request_event * Driver.run unit :=
  match requests_get API_URL request with
  | Raise e => ([Get API_URL request], Driver.Raised (Driver.Exn e))
  | Ok r =>
      if status_code r =? 200 then
        match json r with
        | Raise e => ([Get API_URL request], Driver.Raised (Driver.Exn e))
        | Ok data =>
            match Driver.subscript (getitem data "data") "data" with
            | Driver.Raised e => ([Get API_URL request], Driver.Raised e)
            | Driver.Returned days =>
                let '(lines, r) := print_days days in
                (Get API_URL request :: map PrintLine lines, r)
            end
        end
      else
        ([Get API_URL request; PrintLine (ErrorLine (status_code r))],
         Driver.Returned tt)
  end.

(** The line a day gives when it has the three keys. *)
Definition day_line (d : day) : option line :=
  match getitem d "date", getitem d "Snowfall",
        getitem d "Wind Speed (10 m)" with
  | Some date, Some snowfall, Some windspeed =>
      Some (DayLine date snowfall windspeed)
  | _, _, _ => None
  end.

(** The first of the three keys that a day lacks. *)
Definition missing_key (d : day) : option string :=
  match getitem d "date" with
  | None => Some "date"
  | Some _ =>
      match getitem d "Snowfall" with
      | None => Some "Snowfall"
      | Some _ =>
          match getitem d "Wind Speed (10 m)" with
          | None => Some "Wind Speed (10 m)"
          | Some _ => None
          end
      end
  end.

(** The lines of the days that have the three keys. *)
Definition lines_of (days : list day) : list line :=
  flat_map (fun d => match day_line d with Some l => [l] | None => [] end)
           days.

End Body.

Arguments DayLine {V} date snowfall windspeed.
Arguments ErrorLine {V} status.
Arguments Get {V} url p.
Arguments PrintLine {V} l.

(** Answers for the examples: a refusal with a body that is no JSON, and
    three days of which the last lacks its snowfall. *)
Definition refused (_ : string) (_ : request_params) : result (response Z) :=
  Ok (mkresponse Z 404 (Raise (ValueError "Expecting value"))).

Definition three_days (_ : string) (_ : request_params)
  : result (response Z) :=
  Ok (mkresponse Z 200
        (Ok [("data",
              [[("date", 1); ("Snowfall", 0); ("Wind Speed (10 m)", 12)];
               [("date", 2); ("Snowfall", 3); ("Wind Speed (10 m)", 9)];
               [("date", 3); ("Wind Speed (10 m)", 7)]])])).

End PlainRequest.

(** * Properties *)

(** ** Comparison of floats *)

Lemma SFcompare_antisym a b c :
  SFcompare a b = Some c -> SFcompare b a = Some (CompOpp c).
Proof.
  destruct a as [sa|sa| |sa ma ea], b as [sb|sb| |sb mb eb]; simpl;
    try discriminate;
    try (intros [= <-]; try destruct sa; try destruct sb; reflexivity).
  intros [= <-]. f_equal.
  destruct sa, sb; try reflexivity;
    rewrite (Z.compare_antisym ea eb);
    destruct (ea ?= eb)%Z; simpl; try reflexivity.
  - rewrite CompOpp_involutive.
    now rewrite (Pos.compare_cont_antisym mb ma Eq).
  - now rewrite (Pos.compare_cont_antisym ma mb Eq).
Qed.

Lemma leb_true_ltb_false (a b : float) :
  (a <=? b)%float = true -> (b <? a)%float = false.
Proof.
  rewrite leb_spec, ltb_spec. unfold SFleb, SFltb.
  destruct (SFcompare (Prim2SF a) (Prim2SF b)) as [c|] eqn:E; [|discriminate].
  rewrite (SFcompare_antisym _ _ _ E). destruct c; simpl; congruence.
Qed.

Lemma SFcompare_None a b :
  SFcompare a b = None -> a = S754_nan \/ b = S754_nan.
Proof.
  destruct a as [sa|sa| |sa ma ea], b as [sb|sb| |sb mb eb]; simpl; auto;
    discriminate.
Qed.

Lemma is_nan_of_SF (a : float) : Prim2SF a = S754_nan -> is_nan a = true.
Proof. intros H. unfold is_nan. rewrite eqb_spec, H. reflexivity. Qed.

(** [a < b] is false when [b <= a], and when one of them is NaN. *)
Lemma ltb_false_cases (a b : float) :
  (a <? b)%float = false ->
  (b <=? a)%float = true \/ is_nan a = true \/ is_nan b = true.
Proof.
  rewrite ltb_spec, leb_spec. unfold SFltb, SFleb.
  destruct (SFcompare (Prim2SF a) (Prim2SF b)) as [c|] eqn:E.
  - rewrite (SFcompare_antisym _ _ _ E).
    destruct c; simpl; try discriminate; auto.
  - apply SFcompare_None in E.
    destruct E as [E|E]; apply is_nan_of_SF in E; auto.
Qed.

Lemma latitude_in_not_out x :
  latitude_in_range x = true -> latitude_out_of_range x = false.
Proof.
  unfold latitude_in_range, latitude_out_of_range.
  intros [H1 H2]%andb_prop.
  now rewrite (leb_true_ltb_false _ _ H1), (leb_true_ltb_false _ _ H2).
Qed.

Lemma longitude_in_not_out x :
  longitude_in_range x = true -> longitude_out_of_range x = false.
Proof.
  unfold longitude_in_range, longitude_out_of_range.
  intros [H1 H2]%andb_prop.
  now rewrite (leb_true_ltb_false _ _ H1), (leb_true_ltb_false _ _ H2).
Qed.

(** A coordinate that the checks let pass is within their range, or NaN. *)
Lemma latitude_not_out_cases x :
  latitude_out_of_range x = false ->
  latitude_in_range x = true \/ is_nan x = true.
Proof.
  unfold latitude_out_of_range, latitude_in_range.
  intros [H1 H2]%orb_false_elim.
  destruct (ltb_false_cases _ _ H1) as [L1|[N|N]]; auto;
    [|vm_compute in N; discriminate N].
  destruct (ltb_false_cases _ _ H2) as [L2|[N|N]]; auto;
    [|vm_compute in N; discriminate N].
  left. now rewrite L1, L2.
Qed.

Lemma longitude_not_out_cases x :
  longitude_out_of_range x = false ->
  longitude_in_range x = true \/ is_nan x = true.
Proof.
  unfold longitude_out_of_range, longitude_in_range.
  intros [H1 H2]%orb_false_elim.
  destruct (ltb_false_cases _ _ H1) as [L1|[N|N]]; auto;
    [|vm_compute in N; discriminate N].
  destruct (ltb_false_cases _ _ H2) as [L2|[N|N]]; auto;
    [|vm_compute in N; discriminate N].
  left. now rewrite L1, L2.
Qed.

(** ** Dates: printing then parsing *)

Lemma digit_value n :
  Z.of_N (N_of_ascii (digit n)) - 48 = n mod 10.
Proof.
  unfold digit.
  pose proof (Z.mod_pos_bound n 10 ltac:(lia)) as Hb.
  rewrite N_ascii_embedding by lia. lia.
Qed.

Lemma parse_digits_digit n rest var k :
  parse_digits (String (digit n) rest) var (S k)
  = parse_digits rest (var * 10 + n mod 10) k.
Proof.
  pose proof (Z.mod_pos_bound n 10 ltac:(lia)) as Hb.
  cbn [parse_digits]. rewrite digit_value.
  replace ((0 <=? n mod 10) && (n mod 10 <=? 9)) with true; [reflexivity|].
  symmetry. apply andb_true_intro. split; apply Z.leb_le; lia.
Qed.

Lemma digit_not c n :
  (forall k, 0 <= k <= 9 -> ascii_of_N (Z.to_N (48 + k)) <> c) ->
  Ascii.eqb (digit n) c = false.
Proof.
  intros H. apply Ascii.eqb_neq. unfold digit. apply H.
  pose proof (Z.mod_pos_bound n 10 ltac:(lia)). lia.
Qed.

Lemma digit_not_W n : Ascii.eqb (digit n) "W" = false.
Proof.
  apply digit_not. intros k Hk.
  assert (k = 0 \/ k = 1 \/ k = 2 \/ k = 3 \/ k = 4 \/ k = 5 \/ k = 6
          \/ k = 7 \/ k = 8 \/ k = 9) as Hc by lia.
  repeat destruct Hc as [-> | Hc]; try subst k; discriminate.
Qed.

Lemma digit_not_dash n : Ascii.eqb (digit n) "-" = false.
Proof.
  apply digit_not. intros k Hk.
  assert (k = 0 \/ k = 1 \/ k = 2 \/ k = 3 \/ k = 4 \/ k = 5 \/ k = 6
          \/ k = 7 \/ k = 8 \/ k = 9) as Hc by lia.
  repeat destruct Hc as [-> | Hc]; try subst k; discriminate.
Qed.

Lemma parse_pad2 n rest :
  0 <= n < 100 ->
  parse_digits (pad2 n rest) 0 2 = Some (rest, n).
Proof.
  intros Hn. unfold pad2. rewrite !parse_digits_digit. cbn [parse_digits].
  do 2 f_equal.
  rewrite (Z.mod_small (n / 10) 10)
    by (split; [apply Z.div_pos; lia | apply Z.div_lt_upper_bound; lia]).
  pose proof (Z.div_mod n 10 ltac:(lia)). lia.
Qed.

Lemma parse_pad4 n rest :
  0 <= n < 10000 ->
  parse_digits (pad4 n rest) 0 4 = Some (rest, n).
Proof.
  intros Hn. unfold pad4, pad2. rewrite !parse_digits_digit.
  cbn [parse_digits]. do 2 f_equal.
  rewrite (Z.mod_small (n / 1000) 10)
    by (split; [apply Z.div_pos; lia | apply Z.div_lt_upper_bound; lia]).
  pose proof (Z.div_mod n 10 ltac:(lia)) as H1.
  pose proof (Z.div_mod (n / 10) 10 ltac:(lia)) as H2.
  pose proof (Z.div_mod (n / 100) 10 ltac:(lia)) as H3.
  rewrite (Z.div_div n 10 10) in H2 by lia.
  rewrite (Z.div_div n 100 10) in H3 by lia.
  change (10 * 10) with 100 in H2. change (100 * 10) with 1000 in H3.
  lia.
Qed.

Lemma days_in_month_le_31 y m : days_in_month y m <= 31.
Proof.
  unfold days_in_month. destruct ((m =? 2) && is_leap y); [lia|].
  assert (Forall (fun x => x <= 31) _days_in_month) as F
    by (repeat constructor; lia).
  destruct (nth_in_or_default (Z.to_nat m) _days_in_month 0) as [Hin | ->];
    [|lia].
  rewrite Forall_forall in F. now apply F.
Qed.

Lemma fromisoformat_isoformat d :
  valid_date d -> fromisoformat (isoformat d) = Ok d.
Proof.
  destruct d as [y m dd]. unfold valid_date, check_date_args. cbn [year month day].
  intros H.
  assert (Hc := H).
  repeat (apply andb_prop in H; destruct H as [H ?]).
  unfold MINYEAR, MAXYEAR in *.
  pose proof (days_in_month_le_31 y m).
  unfold fromisoformat, isoformat. cbn [year month day].
  change (strlen _) with 10. cbn [Z.eqb Pos.eqb orb].
  unfold parse_isoformat_date.
  rewrite parse_pad4 by lia.
  cbn [peek_is advance]. change (Ascii.eqb "-" "-") with true. cbv iota.
  unfold pad2 at 1. cbn [peek_is]. rewrite digit_not_W.
  change (String (digit (m / 10)) (String (digit m) ?k)) with (pad2 m k).
  rewrite parse_pad2 by lia.
  cbn [peek_is advance andb negb]. change (Ascii.eqb "-" "-") with true.
  cbn [negb]. rewrite parse_pad2 by lia.
  unfold new_date, check_date_args. unfold MINYEAR, MAXYEAR. now rewrite Hc.
Qed.

(** ** Dates in time *)

Lemma days_before_year_succ y :
  1 <= y ->
  days_before_year (y + 1)
  = days_before_year y + (if is_leap y then 366 else 365).
Proof.
  intros Hy. unfold days_before_year, is_leap.
  replace (y + 1 - 1) with y by ring.
  rewrite !Z.quot_div_nonneg, !Z.rem_mod_nonneg by lia.
  destruct (y mod 4 =? 0) eqn:E4; destruct (y mod 100 =? 0) eqn:E100;
    destruct (y mod 400 =? 0) eqn:E400; cbn [andb orb negb];
    rewrite ?Z.eqb_eq, ?Z.eqb_neq in *;
    Z.div_mod_to_equations; lia.
Qed.

Lemma days_before_year_mono a b :
  1 <= a -> a <= b -> days_before_year a <= days_before_year b.
Proof.
  intros Ha Hab. unfold days_before_year.
  rewrite !Z.quot_div_nonneg by lia.
  Z.div_mod_to_equations. lia.
Qed.

Ltac month_table :=
  repeat match goal with
    | |- context [nth ?n ?l ?d] =>
        let v := eval vm_compute in (nth n l d) in
        change (nth n l d) with v
    | H : context [nth ?n ?l ?d] |- _ =>
        let v := eval vm_compute in (nth n l d) in
        change (nth n l d) with v in H
    end;
  cbn [Z.eqb Pos.eqb Z.ltb Z.compare Pos.compare Pos.compare_cont andb] in *.

Lemma month_cases m :
  1 <= m <= 12 ->
  m = 1 \/ m = 2 \/ m = 3 \/ m = 4 \/ m = 5 \/ m = 6 \/ m = 7 \/ m = 8
  \/ m = 9 \/ m = 10 \/ m = 11 \/ m = 12.
Proof. lia. Qed.

Lemma day_of_year_bounds y m d :
  1 <= m <= 12 -> 1 <= d <= days_in_month y m ->
  1 <= days_before_month y m + d <= (if is_leap y then 366 else 365).
Proof.
  intros Hm Hd.
  unfold days_in_month, days_before_month, _days_in_month, _days_before_month in *.
  apply month_cases in Hm.
  destruct (is_leap y);
    repeat destruct Hm as [-> | Hm]; try subst m; month_table; lia.
Qed.

Lemma day_of_year_mono y m1 d1 m2 d2 :
  1 <= m1 <= 12 -> 1 <= d1 <= days_in_month y m1 ->
  1 <= m2 <= 12 -> 1 <= d2 <= days_in_month y m2 ->
  m1 < m2 ->
  days_before_month y m1 + d1 < days_before_month y m2 + d2.
Proof.
  intros Hm1 Hd1 Hm2 Hd2 Hlt.
  unfold days_in_month, days_before_month, _days_in_month, _days_before_month in *.
  apply month_cases in Hm1. apply month_cases in Hm2.
  destruct (is_leap y);
    repeat destruct Hm1 as [-> | Hm1]; try subst m1;
    repeat destruct Hm2 as [-> | Hm2]; try subst m2;
    try lia; month_table; lia.
Qed.

(** The order of dates is the order of their days. *)
Lemma toordinal_lt_iff a b :
  valid_date a -> valid_date b ->
  date_ltb a b = true <-> toordinal a < toordinal b.
Proof.
  destruct a as [y1 m1 d1], b as [y2 m2 d2].
  unfold valid_date, check_date_args, date_ltb, toordinal, ymd_to_ord,
    MINYEAR, MAXYEAR.
  cbn [year month day]. intros Ha Hb.
  repeat (apply andb_prop in Ha; destruct Ha as [Ha ?]).
  repeat (apply andb_prop in Hb; destruct Hb as [Hb ?]).
  repeat match goal with H : (_ <=? _) = true |- _ => apply Z.leb_le in H end.
  pose proof (day_of_year_bounds y1 m1 d1 ltac:(lia) ltac:(lia)) as B1.
  pose proof (day_of_year_bounds y2 m2 d2 ltac:(lia) ltac:(lia)) as B2.
  rewrite !orb_true_iff, !andb_true_iff, !orb_true_iff, !andb_true_iff,
    !Z.ltb_lt, !Z.eqb_eq.
  destruct (Z.lt_trichotomy y1 y2) as [Hy | [-> | Hy]].
  - pose proof (days_before_year_succ y1 ltac:(lia)) as S1.
    pose proof (days_before_year_mono (y1 + 1) y2 ltac:(lia) ltac:(lia)).
    destruct (is_leap y1); lia.
  - destruct (Z.lt_trichotomy m1 m2) as [Hm | [-> | Hm]].
    + pose proof (day_of_year_mono y2 m1 d1 m2 d2
                    ltac:(lia) ltac:(lia) ltac:(lia) ltac:(lia) Hm).
      lia.
    + lia.
    + pose proof (day_of_year_mono y2 m2 d2 m1 d1
                    ltac:(lia) ltac:(lia) ltac:(lia) ltac:(lia) Hm).
      lia.
  - pose proof (days_before_year_succ y2 ltac:(lia)) as S2.
    pose proof (days_before_year_mono (y2 + 1) y1 ltac:(lia) ltac:(lia)).
    destruct (is_leap y2); lia.
Qed.

(** What is read is a real day. *)
Lemma fromisoformat_valid s d : fromisoformat s = Ok d -> valid_date d.
Proof.
  unfold fromisoformat, new_date.
  destruct (_ || _)%bool; [|discriminate].
  destruct (parse_isoformat_date s) as [[[y m] dd]|]; [|discriminate].
  destruct (check_date_args y m dd) eqn:E; [|discriminate].
  intros [= <-]. exact E.
Qed.

(** ** The parameter checks *)

(** The checks, with the words of the specification for the two ranges. *)
Lemma validate_parameters_eq latitude longitude start_date end_date :
  validate_parameters latitude longitude start_date end_date
  = if latitude_out_of_range latitude
    then Raise (InvalidParameters latitude_message)
    else if longitude_out_of_range longitude
    then Raise (InvalidParameters longitude_message)
    else
      match parse_dates start_date end_date with
      | Ok (s, e) =>
          if date_ltb e s
          then Raise (InvalidParameters date_order_message)
          else Ok (s, e)
      | Raise x => Raise x
      end.
Proof.
  unfold validate_parameters, latitude_out_of_range, longitude_out_of_range.
  destruct (_ || _)%bool; [reflexivity|].
  destruct (_ || _)%bool; [reflexivity|].
  destruct (parse_dates start_date end_date) as [[s e]|x]; reflexivity.
Qed.

Lemma fromisoformat_raises s e :
  fromisoformat s = Raise e -> exists msg, e = ValueError msg.
Proof.
  unfold fromisoformat, new_date.
  destruct (_ || _)%bool; [|intros [= <-]; eauto].
  destruct (parse_isoformat_date s) as [[[y m] d]|]; [|intros [= <-]; eauto].
  destruct (check_date_args y m d); [discriminate|intros [= <-]; eauto].
Qed.

Lemma parse_dates_ok start_date end_date s e :
  fromisoformat start_date = Ok s ->
  fromisoformat end_date = Ok e ->
  parse_dates start_date end_date = Ok (s, e).
Proof. unfold parse_dates, bindr. now intros -> ->. Qed.

Lemma parse_dates_ok_inv start_date end_date s e :
  parse_dates start_date end_date = Ok (s, e) ->
  fromisoformat start_date = Ok s /\ fromisoformat end_date = Ok e.
Proof.
  unfold parse_dates, bindr.
  destruct (fromisoformat start_date) as [s'|x] eqn:E1.
  - destruct (fromisoformat end_date) as [e'|x] eqn:E2.
    + now intros [= -> ->].
    + destruct (fromisoformat_raises _ _ E2) as [msg ->]. discriminate.
  - destruct (fromisoformat_raises _ _ E1) as [msg ->]. discriminate.
Qed.

Lemma parse_dates_raise start_date end_date :
  is_ok (fromisoformat start_date) = false
  \/ is_ok (fromisoformat end_date) = false ->
  parse_dates start_date end_date
  = Raise (InvalidParameters (date_format_message start_date end_date)).
Proof.
  unfold parse_dates, bindr.
  destruct (fromisoformat start_date) as [s'|x] eqn:E1.
  - destruct (fromisoformat end_date) as [e'|x] eqn:E2.
    + intros [H|H]; discriminate H.
    + destruct (fromisoformat_raises _ _ E2) as [msg ->]. reflexivity.
  - destruct (fromisoformat_raises _ _ E1) as [msg ->]. reflexivity.
Qed.

Lemma parse_dates_cases start_date end_date :
  (exists s e, fromisoformat start_date = Ok s
               /\ fromisoformat end_date = Ok e
               /\ parse_dates start_date end_date = Ok (s, e))
  \/ ((is_ok (fromisoformat start_date) = false
       \/ is_ok (fromisoformat end_date) = false)
      /\ parse_dates start_date end_date
         = Raise (InvalidParameters (date_format_message start_date end_date))).
Proof.
  destruct (fromisoformat start_date) as [s|x] eqn:E1.
  - destruct (fromisoformat end_date) as [e|x] eqn:E2.
    + left. exists s, e. repeat split. now apply parse_dates_ok.
    + right. split; [now right|]. apply parse_dates_raise.
      right. now rewrite E2.
  - right. split; [now left|]. apply parse_dates_raise. left. now rewrite E1.
Qed.

(** The four messages are pairwise different. *)
Lemma format_message_not_latitude s e :
  date_format_message s e <> latitude_message.
Proof. unfold date_format_message. cbn. discriminate. Qed.

Lemma format_message_not_longitude s e :
  date_format_message s e <> longitude_message.
Proof. unfold date_format_message. cbn. discriminate. Qed.

Lemma format_message_not_order s e :
  date_format_message s e <> date_order_message.
Proof. unfold date_format_message. cbn. discriminate. Qed.

Lemma date_ltb_irrefl d : date_ltb d d = false.
Proof.
  unfold date_ltb. rewrite !Z.ltb_irrefl, !Z.eqb_refl. reflexivity.
Qed.

(** The result of the checks once both ranges hold and both dates parse. *)
Lemma validate_parameters_parsed latitude longitude start_date end_date s e :
  latitude_out_of_range latitude = false ->
  longitude_out_of_range longitude = false ->
  fromisoformat start_date = Ok s ->
  fromisoformat end_date = Ok e ->
  validate_parameters latitude longitude start_date end_date
  = if date_ltb e s
    then Raise (InvalidParameters date_order_message)
    else Ok (s, e).
Proof.
  intros H1 H2 H3 H4. rewrite validate_parameters_eq, H1, H2.
  now rewrite (parse_dates_ok _ _ _ _ H3 H4).
Qed.

(** Which of the four errors the checks raise is decided by the first rule
    that fails. *)
Lemma validate_parameters_latitude_iff latitude longitude start_date end_date :
  validate_parameters latitude longitude start_date end_date
  = Raise (InvalidParameters latitude_message)
  <-> latitude_out_of_range latitude = true.
Proof.
  rewrite validate_parameters_eq.
  destruct (latitude_out_of_range latitude); [tauto|].
  split; [|discriminate].
  destruct (longitude_out_of_range longitude); [discriminate|].
  destruct (parse_dates_cases start_date end_date)
    as [(s & e & _ & _ & ->) | [_ ->]].
  - destruct (date_ltb e s); discriminate.
  - intros [= H]; try now apply format_message_not_latitude in H.
Qed.

Lemma validate_parameters_longitude_iff latitude longitude start_date end_date :
  latitude_out_of_range latitude = false ->
  validate_parameters latitude longitude start_date end_date
  = Raise (InvalidParameters longitude_message)
  <-> longitude_out_of_range longitude = true.
Proof.
  intros Hlat. rewrite validate_parameters_eq, Hlat.
  destruct (longitude_out_of_range longitude); [tauto|].
  split; [|discriminate].
  destruct (parse_dates_cases start_date end_date)
    as [(s & e & _ & _ & ->) | [_ ->]].
  - destruct (date_ltb e s); discriminate.
  - intros [= H]; try now apply format_message_not_longitude in H.
Qed.

Lemma validate_parameters_format_iff latitude longitude start_date end_date :
  latitude_out_of_range latitude = false ->
  longitude_out_of_range longitude = false ->
  validate_parameters latitude longitude start_date end_date
  = Raise (InvalidParameters (date_format_message start_date end_date))
  <-> (is_ok (fromisoformat start_date) = false
       \/ is_ok (fromisoformat end_date) = false).
Proof.
  intros Hlat Hlon. rewrite validate_parameters_eq, Hlat, Hlon.
  destruct (parse_dates_cases start_date end_date)
    as [(s & e & Hs & He & ->) | [H ->]].
  - rewrite Hs, He. cbn [is_ok].
    split; [|intros [?|?]; discriminate].
    destruct (date_ltb e s); [|discriminate].
    intros [= H]; try (symmetry in H; now apply format_message_not_order in H).
  - tauto.
Qed.

(** ** The whole call: what happens around the checks *)

Section Call.

Context {pd : release}.
Variable weather_api : string -> params -> result (list WeatherApiResponse).

(** A failed check ends the call right after the client set-up. *)
Lemma call_invalid latitude longitude start_date end_date fields e :
  validate_parameters latitude longitude start_date end_date = Raise e ->
  get_historical_weather_at_given_coordinates
    weather_api latitude longitude start_date end_date fields
  = (client_setup, Raise e).
Proof.
  intros H. unfold get_historical_weather_at_given_coordinates.
  unfold bind, emit, lift. rewrite H. reflexivity.
Qed.

(** Passed checks are followed by the log record and the request. *)
Lemma call_valid latitude longitude start_date end_date fields p :
  validate_parameters latitude longitude start_date end_date = Ok p ->
  exists rest,
    fst (get_historical_weather_at_given_coordinates
           weather_api latitude longitude start_date end_date fields)
    = (client_setup
       ++ [LoggerInfo LogCalling;
           WeatherApi url (mkparams latitude longitude start_date end_date
                                    fields)]
       ++ rest)%list.
Proof.
  intros H. unfold get_historical_weather_at_given_coordinates.
  unfold bind, emit, lift, call_weather_api. rewrite H.
  destruct (weather_api _ _) as [[|r rs]|e]; cbn; eexists; reflexivity.
Qed.

(** When the provider answers, the result is the reshaped hourly block of
    the first response. *)
Lemma call_answered latitude longitude start_date end_date fields p r rs :
  validate_parameters latitude longitude start_date end_date = Ok p ->
  weather_api url (mkparams latitude longitude start_date end_date fields)
  = Ok (r :: rs) ->
  snd (get_historical_weather_at_given_coordinates
         weather_api latitude longitude start_date end_date fields)
  = hourly_dataframe (Hourly r).
Proof.
  intros H Hr. unfold get_historical_weather_at_given_coordinates.
  unfold bind, emit, lift, call_weather_api. rewrite H, Hr. reflexivity.
Qed.

End Call.

(** ** The time axis *)

Lemma in_int64_true z : - INT64_MAX <= z <= INT64_MAX -> in_int64 z = true.
Proof.
  intros [H1 H2]. unfold in_int64.
  apply andb_true_intro. split; now apply Z.leb_le.
Qed.

Lemma arange_length b n stride :
  0 < stride ->
  - ((b - (b + n * stride + stride / 2 + 1)) / stride) = n + 1.
Proof.
  intros Hs.
  assert (0 <= stride / 2 < stride)
    by (split; [apply Z.div_pos; lia | apply Z.div_lt; lia]).
  replace (b - (b + n * stride + stride / 2 + 1))
    with ((- (n + 1)) * stride + (stride - stride / 2 - 1)) by ring.
  rewrite Z.div_add_l by lia. rewrite Z.div_small by lia. lia.
Qed.

(** The same for a stride that runs backwards, by more than two
    nanoseconds. *)
Lemma arange_length_backward b n stride :
  stride < -2 ->
  - ((b - (b + n * stride + stride / 2 + 1)) / stride) = n + 1.
Proof.
  intros Hs.
  pose proof (Z.div_mod stride 2 ltac:(lia)) as H2.
  pose proof (Z.mod_pos_bound stride 2 ltac:(lia)) as M2.
  replace (b - (b + n * stride + stride / 2 + 1))
    with ((- (n + 1)) * stride + (stride - stride / 2 - 1)) by ring.
  rewrite Z.div_add_l by lia.
  assert ((stride - stride / 2 - 1) / stride = 0) as ->; [|lia].
  symmetry. apply (Z.div_unique_neg _ _ _ (stride - stride / 2 - 1)); lia.
Qed.

(** A regular range over [n] whole strides has [n + 1] points, both ends
    included. *)
Lemma generate_regular_range_whole b n stride :
  0 < stride ->
  generate_regular_range b (b + Z.of_nat n * stride) stride
  = map (fun i => b + Z.of_nat i * stride) (seq 0 (S n)).
Proof.
  intros Hs. unfold generate_regular_range, arange.
  replace (b + Z.of_nat n * stride - b) with (Z.of_nat n * stride) by ring.
  rewrite Z.div_mul by lia. rewrite arange_length by lia.
  replace (Z.to_nat (Z.of_nat n + 1)) with (S n) by lia. reflexivity.
Qed.

Lemma regular_range_length b iend stride :
  0 < stride -> b <= iend ->
  generate_regular_range b iend stride
  = map (fun i => b + Z.of_nat i * stride)
        (seq 0 (S (Z.to_nat ((iend - b) / stride)))).
Proof.
  intros Hs Hb. unfold generate_regular_range, arange.
  rewrite arange_length by lia.
  assert (0 <= (iend - b) / stride) by (apply Z.div_pos; lia).
  replace (Z.to_nat ((iend - b) / stride + 1))
    with (S (Z.to_nat ((iend - b) / stride))) by lia.
  reflexivity.
Qed.

Lemma regular_range_length_backward b iend stride :
  stride < -2 -> iend <= b ->
  generate_regular_range b iend stride
  = map (fun i => b + Z.of_nat i * stride)
        (seq 0 (S (Z.to_nat ((iend - b) / stride)))).
Proof.
  intros Hs Hb. unfold generate_regular_range, arange.
  rewrite arange_length_backward by lia.
  assert (0 <= (iend - b) / stride).
  { pose proof (Z.div_mod (iend - b) stride ltac:(lia)).
    pose proof (Z.mod_neg_bound (iend - b) stride ltac:(lia)). nia. }
  replace (Z.to_nat ((iend - b) / stride + 1))
    with (S (Z.to_nat ((iend - b) / stride))) by lia.
  reflexivity.
Qed.

(** The steps of [s] from [t0] towards [t1], when [t1] lies in the
    direction of the step: the last of them starts before [t1], and one
    more would reach or pass it. *)
Lemma steps_before_spec t0 t1 s :
  0 < s -> t0 < t1 ->
  let n := Z.of_nat (steps_before t0 t1 s) in
  0 < n /\ t0 + (n - 1) * s < t1 <= t0 + n * s.
Proof.
  intros Hs Ht. unfold steps_before. cbv zeta.
  pose proof (Z.div_mod (t0 - t1) s ltac:(lia)) as Hd.
  pose proof (Z.mod_pos_bound (t0 - t1) s Hs) as Hm.
  assert ((t0 - t1) / s < 0) by (apply Z.div_lt_upper_bound; lia).
  rewrite Z2Nat.id by lia. nia.
Qed.

Lemma steps_before_spec_backward t0 t1 s :
  s < 0 -> t1 < t0 ->
  let n := Z.of_nat (steps_before t0 t1 s) in
  0 < n /\ t0 + n * s <= t1 < t0 + (n - 1) * s.
Proof.
  intros Hs Ht. unfold steps_before. cbv zeta.
  pose proof (Z.div_mod (t0 - t1) s ltac:(lia)) as Hd.
  pose proof (Z.mod_neg_bound (t0 - t1) s Hs) as Hm.
  assert ((t0 - t1) / s < 0) by nia.
  rewrite Z2Nat.id by lia. nia.
Qed.

Lemma steps_before_whole t0 s n :
  s <> 0 -> steps_before t0 (t0 + Z.of_nat n * s) s = n.
Proof.
  intros Hs. unfold steps_before.
  replace (t0 - (t0 + Z.of_nat n * s)) with ((- Z.of_nat n) * s) by ring.
  rewrite Z.div_mul by exact Hs. lia.
Qed.

Section TimeAxis.

Context {pd : release}.

Lemma to_datetime_instant t :
  -9223372036 <= t <= 9223372036 -> to_datetime t = Ok (At (instant t)).
Proof.
  intros H. unfold to_datetime. rewrite in_int64_true; [reflexivity|].
  unfold INT64_MAX, NS_PER_S. lia.
Qed.

Lemma Timedelta_seconds s :
  -9223372036 <= s <= 9223372036 -> Timedelta s = Ok (s * NS_PER_S).
Proof.
  intros H. unfold Timedelta. rewrite in_int64_true; [reflexivity|].
  unfold INT64_MAX, NS_PER_S. lia.
Qed.

(** [date_range] from [t0] to a later [t1] in steps of [s > 0] seconds,
    within what a nanosecond timestamp holds: the instants [t0 + i * s]
    that come before [t1], and no other. *)
Lemma date_range_forward t0 t1 s :
  0 < s -> t0 < t1 ->
  -9223372036 <= t0 -> t1 + s <= 9223372036 -> t1 - t0 + s <= 9223372036 ->
  date_range (At (instant t0)) (At (instant t1)) (s * NS_PER_S)
  = Ok (map (fun i => instant (t0 + Z.of_nat i * s))
            (seq 0 (steps_before t0 t1 s))).
Proof.
  intros Hs Ht B0 B1 B2. unfold date_range, instant, NS_PER_S.
  pose proof (Z.div_mod (t1 - t0) s ltac:(lia)) as Hd.
  pose proof (Z.mod_pos_bound (t1 - t0) s Hs) as Hm.
  assert (0 <= (t1 - t0) / s) as Hk by (apply Z.div_pos; lia).
  assert ((t1 * 1000000000 - t0 * 1000000000) / (s * 1000000000)
          = (t1 - t0) / s) as Eq.
  { replace (t1 * 1000000000 - t0 * 1000000000)
      with ((t1 - t0) * 1000000000) by ring.
    apply Z.div_mul_cancel_r; lia. }
  assert (s * 1000000000 / 2 = s * 500000000) as Eh.
  { replace (s * 1000000000) with (s * 500000000 * 2) by ring.
    apply Z.div_mul. lia. }
  assert (regular (t0 * 1000000000) (t1 * 1000000000) (s * 1000000000)
          = true) as ->.
  { unfold regular. rewrite Eq, Eh.
    replace (s * 1000000000 =? 0) with false
      by (symmetry; apply Z.eqb_neq; lia).
    replace (t0 * 1000000000 =? t1 * 1000000000) with false
      by (symmetry; apply Z.eqb_neq; lia).
    rewrite !in_int64_true; [reflexivity| | | |]; unfold INT64_MAX; nia. }
  rewrite regular_range_length by lia. rewrite Eq.
  set (k := Z.to_nat ((t1 - t0) / s)).
  assert (Z.of_nat k = (t1 - t0) / s) as Ek by (unfold k; lia).
  pose proof (steps_before_spec t0 t1 s Hs Ht) as Hn. cbv zeta in Hn.
  rewrite seq_S, map_app, length_app. cbn [map List.length Nat.add].
  rewrite last_last.
  replace (Nat.eqb (List.length _ + 1) 0) with false
    by (symmetry; apply Nat.eqb_neq; lia).
  cbn [negb andb].
  destruct (Z.eq_dec ((t1 - t0) mod s) 0) as [E|E].
  - replace (t0 * 1000000000 + Z.of_nat k * (s * 1000000000)
             =? t1 * 1000000000) with true
      by (symmetry; apply Z.eqb_eq; nia).
    rewrite removelast_last.
    replace (steps_before t0 t1 s) with k by nia.
    apply (f_equal (@Ok _)). apply map_ext. intros i. unfold Timestamp. ring.
  - replace (t0 * 1000000000 + Z.of_nat k * (s * 1000000000)
             =? t1 * 1000000000) with false
      by (symmetry; apply Z.eqb_neq; nia).
    replace (steps_before t0 t1 s) with (S k) by nia.
    rewrite seq_S, map_app. cbn [map Nat.add].
    apply (f_equal (@Ok _)). apply f_equal2.
    + apply map_ext. intros i. unfold Timestamp. ring.
    + apply (f_equal (fun x => [x])). unfold Timestamp. ring.
Qed.

(** The same for a step that runs backwards, to an earlier [t1]. *)
Lemma date_range_backward t0 t1 s :
  s < 0 -> t1 < t0 ->
  -9223372036 <= t1 + s -> t0 <= 9223372036 -> t0 - t1 - s <= 9223372036 ->
  date_range (At (instant t0)) (At (instant t1)) (s * NS_PER_S)
  = Ok (map (fun i => instant (t0 + Z.of_nat i * s))
            (seq 0 (steps_before t0 t1 s))).
Proof.
  intros Hs Ht B0 B1 B2. unfold date_range, instant, NS_PER_S.
  pose proof (Z.div_mod (t1 - t0) s ltac:(lia)) as Hd.
  pose proof (Z.mod_neg_bound (t1 - t0) s Hs) as Hm.
  assert (0 <= (t1 - t0) / s) as Hk by nia.
  assert ((t1 * 1000000000 - t0 * 1000000000) / (s * 1000000000)
          = (t1 - t0) / s) as Eq.
  { replace (t1 * 1000000000 - t0 * 1000000000)
      with ((t1 - t0) * 1000000000) by ring.
    apply Z.div_mul_cancel_r; lia. }
  assert (s * 1000000000 / 2 = s * 500000000) as Eh.
  { replace (s * 1000000000) with (s * 500000000 * 2) by ring.
    apply Z.div_mul. lia. }
  assert (regular (t0 * 1000000000) (t1 * 1000000000) (s * 1000000000)
          = true) as ->.
  { unfold regular. rewrite Eq, Eh.
    replace (s * 1000000000 =? 0) with false
      by (symmetry; apply Z.eqb_neq; lia).
    replace (t0 * 1000000000 =? t1 * 1000000000) with false
      by (symmetry; apply Z.eqb_neq; lia).
    rewrite !in_int64_true; [reflexivity| | | |]; unfold INT64_MAX; nia. }
  rewrite regular_range_length_backward by lia. rewrite Eq.
  set (k := Z.to_nat ((t1 - t0) / s)).
  assert (Z.of_nat k = (t1 - t0) / s) as Ek by (unfold k; lia).
  pose proof (steps_before_spec_backward t0 t1 s Hs Ht) as Hn.
  cbv zeta in Hn.
  rewrite seq_S, map_app, length_app. cbn [map List.length Nat.add].
  rewrite last_last.
  replace (Nat.eqb (List.length _ + 1) 0) with false
    by (symmetry; apply Nat.eqb_neq; lia).
  cbn [negb andb].
  destruct (Z.eq_dec ((t1 - t0) mod s) 0) as [E|E].
  - replace (t0 * 1000000000 + Z.of_nat k * (s * 1000000000)
             =? t1 * 1000000000) with true
      by (symmetry; apply Z.eqb_eq; nia).
    rewrite removelast_last.
    replace (steps_before t0 t1 s) with k by nia.
    apply (f_equal (@Ok _)). apply map_ext. intros i. unfold Timestamp. ring.
  - replace (t0 * 1000000000 + Z.of_nat k * (s * 1000000000)
             =? t1 * 1000000000) with false
      by (symmetry; apply Z.eqb_neq; nia).
    replace (steps_before t0 t1 s) with (S k) by nia.
    rewrite seq_S, map_app. cbn [map Nat.add].
    apply (f_equal (@Ok _)). apply f_equal2.
    + apply map_ext. intros i. unfold Timestamp. ring.
    + apply (f_equal (fun x => [x])). unfold Timestamp. ring.
Qed.

(** The time axis of an hourly block whose end lies in the direction of
    its step, within what a nanosecond timestamp holds. *)
Lemma hourly_date_range_regular h :
  (0 < Interval h /\ Time h < TimeEnd h)
  \/ (Interval h < 0 /\ TimeEnd h < Time h) ->
  within_nanoseconds h ->
  hourly_date_range h
  = Ok (map (fun i => instant (Time h + Z.of_nat i * Interval h))
            (seq 0 (steps_before (Time h) (TimeEnd h) (Interval h)))).
Proof.
  intros Hd (B0 & B1 & B2). unfold hourly_date_range, bindr.
  rewrite !to_datetime_instant, Timedelta_seconds by lia.
  destruct Hd as [[Hs Ht]|[Hs Ht]].
  - apply date_range_forward; lia.
  - apply date_range_backward; lia.
Qed.

End TimeAxis.

(** ** The frame *)

Lemma mkDataFrame_four ts c0 c1 c2 :
  mkDataFrame [("date", DatetimeIndex ts);
               ("snowfall", c0);
               ("wind_speed_10m", c1);
               ("wind_gusts_10m", c2)]
  = if fits (List.length ts) c0 && fits (List.length ts) c1
       && fits (List.length ts) c2
    then Ok [("date", DatetimeIndex ts);
             ("snowfall", broadcast (List.length ts) c0);
             ("wind_speed_10m", broadcast (List.length ts) c1);
             ("wind_gusts_10m", broadcast (List.length ts) c2)]
    else Raise (ValueError "All arrays must be of the same length").
Proof.
  unfold mkDataFrame, fits.
  destruct c0, c1, c2;
    cbn [filter forallb snd fst negb is_scalar len map broadcast orb];
    rewrite ?andb_true_r, ?andb_assoc; reflexivity.
Qed.

Lemma array_of_other_length_fits n c :
  array_of_other_length n c -> fits n c = false.
Proof.
  intros (a & -> & H). unfold fits. cbn [is_scalar len orb].
  now apply Nat.eqb_neq.
Qed.

Lemma fits_ValuesAsNumpy n x :
  fits n (ValuesAsNumpy x) = has_no_values_or n x.
Proof.
  unfold fits, ValuesAsNumpy, has_no_values_or.
  destruct (values x); reflexivity.
Qed.

Lemma no_values_or_true n x :
  no_values_or n x <-> has_no_values_or n x = true.
Proof.
  unfold no_values_or, has_no_values_or.
  destruct (values x); [symmetry; apply Nat.eqb_eq | tauto].
Qed.

Lemma fits_whole_column n c :
  fits n c = true -> whole_column n c (broadcast n c).
Proof.
  unfold fits, whole_column. intros H. split; [reflexivity|].
  intros Hc. rewrite Hc in H. now apply Nat.eqb_eq.
Qed.

Lemma values_as_numpy_eq h j v :
  nth_error (variables h) j = Some v ->
  values_as_numpy h j = Ok (ValuesAsNumpy v).
Proof.
  intros H. unfold values_as_numpy, Variables, bindr. now rewrite H.
Qed.

Section Frame.

Context {pd : release}.

Lemma hourly_dataframe_eq h c0 c1 c2 ts :
  values_as_numpy h 0 = Ok c0 ->
  values_as_numpy h 1 = Ok c1 ->
  values_as_numpy h 2 = Ok c2 ->
  hourly_date_range h = Ok ts ->
  hourly_dataframe h
  = mkDataFrame [("date", DatetimeIndex ts);
                 ("snowfall", c0);
                 ("wind_speed_10m", c1);
                 ("wind_gusts_10m", c2)].
Proof.
  intros H0 H1 H2 Ht. unfold hourly_dataframe.
  rewrite H0, H1, H2, Ht. reflexivity.
Qed.

(** A frame is returned only with the whole time axis and the whole of
    what was read, all of one length. *)
Lemma hourly_dataframe_inv h df :
  hourly_dataframe h = Ok df -> complete_table h df.
Proof.
  unfold hourly_dataframe.
  destruct (values_as_numpy h 0) as [c0|] eqn:H0; [|discriminate].
  destruct (values_as_numpy h 1) as [c1|] eqn:H1; [|discriminate].
  destruct (values_as_numpy h 2) as [c2|] eqn:H2; [|discriminate].
  destruct (hourly_date_range h) as [ts|] eqn:Ht; [|discriminate].
  unfold bindr. cbn [setitem String.eqb Ascii.eqb Bool.eqb].
  rewrite mkDataFrame_four.
  destruct (fits (List.length ts) c0) eqn:E0; [|discriminate].
  destruct (fits (List.length ts) c1) eqn:E1; [|discriminate].
  destruct (fits (List.length ts) c2) eqn:E2; [|discriminate].
  intros [= <-]. unfold complete_table.
  exists ts, c0, c1, c2. do 3 eexists.
  split; [exact Ht|]. split; [exact H0|]. split; [exact H1|].
  split; [exact H2|]. split; [reflexivity|].
  split; [|split]; now apply fits_whole_column.
Qed.

(** An array that does not match the time axis is refused by the frame
    constructor. *)
Lemma hourly_dataframe_mismatch h c0 c1 c2 ts :
  values_as_numpy h 0 = Ok c0 ->
  values_as_numpy h 1 = Ok c1 ->
  values_as_numpy h 2 = Ok c2 ->
  hourly_date_range h = Ok ts ->
  fits (List.length ts) c0 = false
  \/ fits (List.length ts) c1 = false
  \/ fits (List.length ts) c2 = false ->
  hourly_dataframe h = Raise (ValueError "All arrays must be of the same length").
Proof.
  intros H0 H1 H2 Ht Hne.
  rewrite (hourly_dataframe_eq h c0 c1 c2 ts H0 H1 H2 Ht), mkDataFrame_four.
  destruct Hne as [-> | [-> | ->]];
    rewrite ?andb_false_r; reflexivity.
Qed.

End Frame.

(** * The claims *)

(** The examples run on the releases 2 of pandas: a statement that names
    no release of its own is about [pandas_2]. *)
#[local] Existing Instance pandas_2.

(** ** Accepted parameters *)

(** C3. For every latitude within -90 to 90 and every longitude within 0 to
    180, bounds included, and every pair of date strings that are ISO
    calendar dates YYYY-MM-DD of real days with the end date not before the
    start date, the parameter checks raise nothing: they return the two
    parsed dates. *)
Theorem valid_parameters_accepted
  (latitude longitude : float) (start_date end_date : string) (s e : date) :
  latitude_in_range latitude = true ->
  longitude_in_range longitude = true ->
  iso_calendar_date start_date s ->
  iso_calendar_date end_date e ->
  date_leb s e = true ->
  validate_parameters latitude longitude start_date end_date = Ok (s, e).
Proof.
  intros Hlat Hlon [Hs ->] [He ->] Hle.
  rewrite (validate_parameters_parsed latitude longitude _ _ s e);
    auto using latitude_in_not_out, longitude_in_not_out,
               fromisoformat_isoformat.
  unfold date_leb in Hle. apply negb_true_iff in Hle. now rewrite Hle.
Qed.

(** The bounds -90 and 180 with equal start and end dates. *)
Lemma valid_parameters_accepted_witness :
  latitude_in_range (-90) = true
  /\ longitude_in_range 180 = true
  /\ iso_calendar_date "2024-01-01" (mkdate 2024 1 1)
  /\ date_leb (mkdate 2024 1 1) (mkdate 2024 1 1) = true
  /\ validate_parameters (-90) 180 "2024-01-01" "2024-01-01"
     = Ok (mkdate 2024 1 1, mkdate 2024 1 1).
Proof.
  assert (iso_calendar_date "2024-01-01" (mkdate 2024 1 1)) as Hd
    by (split; reflexivity).
  split; [reflexivity|]. split; [reflexivity|].
  split; [exact Hd|]. split; [reflexivity|].
  apply (valid_parameters_accepted (-90) 180 "2024-01-01" "2024-01-01"
           (mkdate 2024 1 1) (mkdate 2024 1 1));
    first [ exact Hd | reflexivity ].
Defined.

(** The other two bounds. *)
Example valid_parameters_upper_latitude_zero_longitude :
  validate_parameters 90 0 "2024-01-01" "2024-01-02"
  = Ok (mkdate 2024 1 1, mkdate 2024 1 2).
Proof. reflexivity. Qed.

(** ** Latitude *)

(** C6. Whatever the other arguments are, the checks raise
    InvalidParameters with the latitude message exactly when the latitude
    is below -90 or above 90; so 91 and -91 are refused, and -90 and 90 are
    not. *)
Theorem latitude_error_iff
  (latitude longitude : float) (start_date end_date : string) :
  (validate_parameters latitude longitude start_date end_date
   = Raise (InvalidParameters latitude_message)
   <-> ((latitude <? -90)%float = true \/ (90 <? latitude)%float = true))
  /\ validate_parameters 91 longitude start_date end_date
     = Raise (InvalidParameters latitude_message)
  /\ validate_parameters (-91) longitude start_date end_date
     = Raise (InvalidParameters latitude_message)
  /\ validate_parameters (-90) longitude start_date end_date
     <> Raise (InvalidParameters latitude_message)
  /\ validate_parameters 90 longitude start_date end_date
     <> Raise (InvalidParameters latitude_message).
Proof.
  repeat split.
  - intros H%validate_parameters_latitude_iff.
    now apply orb_true_iff in H.
  - intros H. apply validate_parameters_latitude_iff.
    now apply orb_true_iff.
  - intros H%validate_parameters_latitude_iff. discriminate H.
  - intros H%validate_parameters_latitude_iff. discriminate H.
Qed.

(** ** Longitude *)

(** C5. For every latitude within range, the checks raise
    InvalidParameters with the longitude message exactly when the longitude
    is below 0 or above 180; -1, -0.1278 and 181 are refused, 0 and 180 are
    not. *)
Theorem longitude_error_iff
  (latitude longitude : float) (start_date end_date : string) :
  latitude_in_range latitude = true ->
  (validate_parameters latitude longitude start_date end_date
   = Raise (InvalidParameters longitude_message)
   <-> ((longitude <? 0)%float = true \/ (180 <? longitude)%float = true))
  /\ validate_parameters latitude (-1) start_date end_date
     = Raise (InvalidParameters longitude_message)
  /\ validate_parameters latitude (-0.1278) start_date end_date
     = Raise (InvalidParameters longitude_message)
  /\ validate_parameters latitude 181 start_date end_date
     = Raise (InvalidParameters longitude_message)
  /\ validate_parameters latitude 0 start_date end_date
     <> Raise (InvalidParameters longitude_message)
  /\ validate_parameters latitude 180 start_date end_date
     <> Raise (InvalidParameters longitude_message).
Proof.
  intros Hlat%latitude_in_not_out.
  repeat split.
  - intros H. apply (validate_parameters_longitude_iff _ _ _ _ Hlat) in H.
    now apply orb_true_iff in H.
  - intros H. apply (validate_parameters_longitude_iff _ _ _ _ Hlat).
    now apply orb_true_iff.
  - now apply (validate_parameters_longitude_iff _ _ _ _ Hlat).
  - now apply (validate_parameters_longitude_iff _ _ _ _ Hlat).
  - now apply (validate_parameters_longitude_iff _ _ _ _ Hlat).
  - intros H. apply (validate_parameters_longitude_iff _ _ _ _ Hlat) in H.
    discriminate H.
  - intros H. apply (validate_parameters_longitude_iff _ _ _ _ Hlat) in H.
    discriminate H.
Qed.

(** London, with its western longitude. *)
Lemma longitude_error_iff_witness :
  latitude_in_range 51.5074 = true
  /\ validate_parameters 51.5074 (-0.1278) "2023-01-01" "2023-01-31"
     = Raise (InvalidParameters longitude_message).
Proof.
  split; [reflexivity|].
  apply (longitude_error_iff 51.5074 (-0.1278) "2023-01-01" "2023-01-31").
  reflexivity.
Defined.

(** ** Order of the dates *)

(** C7. For coordinates within range and two date strings that parse, the
    checks raise InvalidParameters with the message that the end date
    cannot be before the start date exactly when the parsed end date is
    strictly earlier than the parsed start date, that is, when its day
    comes before the start date's; otherwise, and so for equal dates, they
    return the parsed dates. *)
Theorem date_order_error_iff
  (latitude longitude : float) (start_date end_date : string) (s e : date) :
  latitude_in_range latitude = true ->
  longitude_in_range longitude = true ->
  fromisoformat start_date = Ok s ->
  fromisoformat end_date = Ok e ->
  (validate_parameters latitude longitude start_date end_date
   = Raise (InvalidParameters date_order_message)
   <-> date_ltb e s = true)
  /\ (date_ltb e s = true <-> toordinal e < toordinal s)
  /\ (toordinal s <= toordinal e ->
      validate_parameters latitude longitude start_date end_date = Ok (s, e))
  /\ (e = s ->
      validate_parameters latitude longitude start_date end_date = Ok (s, e)).
Proof.
  intros Hlat%latitude_in_not_out Hlon%longitude_in_not_out Hs He.
  rewrite (validate_parameters_parsed _ _ _ _ s e Hlat Hlon Hs He).
  pose proof (toordinal_lt_iff e s (fromisoformat_valid _ _ He)
                (fromisoformat_valid _ _ Hs)) as Hord.
  split; [|split; [exact Hord|split]].
  - destruct (date_ltb e s); split; intros H;
      first [reflexivity | discriminate H].
  - intros Hle. destruct (date_ltb e s); [|reflexivity].
    destruct Hord as [Hord _]. specialize (Hord eq_refl). lia.
  - intros ->. now rewrite date_ltb_irrefl.
Qed.

(** The end date a month before the start date. *)
Lemma date_order_error_iff_witness :
  latitude_in_range 51.5 = true
  /\ longitude_in_range 0 = true
  /\ fromisoformat "2024-02-01" = Ok (mkdate 2024 2 1)
  /\ fromisoformat "2024-01-01" = Ok (mkdate 2024 1 1)
  /\ validate_parameters 51.5 0 "2024-02-01" "2024-01-01"
     = Raise (InvalidParameters date_order_message).
Proof.
  split; [reflexivity|]. split; [reflexivity|].
  split; [reflexivity|]. split; [reflexivity|].
  apply (date_order_error_iff 51.5 0 "2024-02-01" "2024-01-01"
           (mkdate 2024 2 1) (mkdate 2024 1 1));
    reflexivity.
Defined.

(** ** Format of the dates *)

Lemma parse_digits_inv c rest var k r :
  parse_digits (String c rest) var (S k) = Some r ->
  exists v, 0 <= v <= 9 /\ c = digit v
            /\ parse_digits rest (var * 10 + v) k = Some r.
Proof.
  cbn [parse_digits].
  destruct ((0 <=? _) && (_ <=? 9)) eqn:E; [|discriminate].
  apply andb_prop in E. destruct E as [E1%Z.leb_le E2%Z.leb_le].
  intros H. exists (Z.of_N (N_of_ascii c) - 48). repeat split; try lia; auto.
  unfold digit. rewrite Z.mod_small by lia.
  replace (Z.to_N (48 + (Z.of_N (N_of_ascii c) - 48))) with (N_of_ascii c)
    by lia.
  now rewrite ascii_N_embedding.
Qed.

Lemma digit_mod a b : a mod 10 = b mod 10 -> digit a = digit b.
Proof. unfold digit. now intros ->. Qed.

Lemma parse_digits_not_digit c rest var k :
  (forall v, c <> digit v) ->
  parse_digits (String c rest) var (S k) = None.
Proof.
  intros H. destruct (parse_digits (String c rest) var (S k)) eqn:E; auto.
  apply parse_digits_inv in E. destruct E as (v & _ & -> & _).
  now destruct (H v).
Qed.

Lemma dash_not_digit v : "-"%char <> digit v.
Proof.
  intros H. pose proof (digit_not_dash v) as E.
  rewrite <- H in E. discriminate E.
Qed.

Lemma W_not_digit v : "W"%char <> digit v.
Proof.
  intros H. pose proof (digit_not_W v) as E.
  rewrite <- H in E. discriminate E.
Qed.

(** A ten-character string with dashes in the fifth and eighth place is
    read as a date only when it is the YYYY-MM-DD form of a real day. *)
Lemma fromisoformat_dashed y1 y2 y3 y4 m1 m2 d1 d2 d :
  fromisoformat (dashed y1 y2 y3 y4 m1 m2 d1 d2) = Ok d ->
  iso_calendar_date (dashed y1 y2 y3 y4 m1 m2 d1 d2) d.
Proof.
  unfold fromisoformat, dashed. change (strlen _) with 10.
  cbn [Z.eqb Pos.eqb orb]. unfold parse_isoformat_date.
  destruct (parse_digits _ 0 4) as [[p y]|] eqn:Ey; [|discriminate].
  apply parse_digits_inv in Ey. destruct Ey as (a1 & Ha1 & -> & Ey).
  apply parse_digits_inv in Ey. destruct Ey as (a2 & Ha2 & -> & Ey).
  apply parse_digits_inv in Ey. destruct Ey as (a3 & Ha3 & -> & Ey).
  apply parse_digits_inv in Ey. destruct Ey as (a4 & Ha4 & -> & Ey).
  cbn [parse_digits] in Ey. injection Ey as <- <-.
  cbn [peek_is advance]. change (Ascii.eqb "-" "-") with true. cbv iota.
  cbn [peek_is advance].
  destruct (Ascii.eqb m1 "W") eqn:EW.
  - (* a week date would need a digit where the second dash is *)
    cbn [advance].
    destruct (parse_digits (String m2 _) 0 2) as [[p w]|] eqn:Ew;
      [|discriminate].
    apply parse_digits_inv in Ew. destruct Ew as (b1 & _ & -> & Ew).
    rewrite parse_digits_not_digit in Ew by apply dash_not_digit.
    discriminate Ew.
  - destruct (parse_digits (String m1 _) 0 2) as [[p m]|] eqn:Em;
      [|discriminate].
    apply parse_digits_inv in Em. destruct Em as (b1 & Hb1 & -> & Em).
    apply parse_digits_inv in Em. destruct Em as (b2 & Hb2 & -> & Em).
    cbn [parse_digits] in Em. injection Em as <- <-.
    cbn [peek_is advance andb negb]. change (Ascii.eqb "-" "-") with true.
    cbn [negb].
    destruct (parse_digits (String d1 _) 0 2) as [[p dd]|] eqn:Ed;
      [|discriminate].
    apply parse_digits_inv in Ed. destruct Ed as (c1 & Hc1 & -> & Ed).
    apply parse_digits_inv in Ed. destruct Ed as (c2 & Hc2 & -> & Ed).
    cbn [parse_digits] in Ed. injection Ed as <- <-.
    unfold new_date.
    destruct (check_date_args _ _ _) eqn:Hv; [|discriminate].
    intros [= <-]. split; [exact Hv|].
    unfold isoformat, pad4, pad2. cbn [year month day].
    repeat match goal with
           | |- String _ _ = String _ _ =>
               apply (f_equal2 String);
               [first [reflexivity
                      | apply digit_mod; Z.div_mod_to_equations; lia]|]
           end.
    reflexivity.
Qed.

Lemma peek_pad2_dash n k : peek_is (pad2 n k) "-" = false.
Proof. unfold pad2. cbn [peek_is]. apply digit_not_dash. Qed.

Lemma peek_pad2_W n k : peek_is (pad2 n k) "W" = false.
Proof. unfold pad2. cbn [peek_is]. apply digit_not_W. Qed.

(** The undelimited form of a real day is read as that day. *)
Lemma fromisoformat_basic d :
  valid_date d -> fromisoformat (basic_format d) = Ok d.
Proof.
  destruct d as [y m dd]. unfold valid_date, check_date_args.
  cbn [year month day]. intros H.
  assert (Hc := H).
  repeat (apply andb_prop in H; destruct H as [H ?]).
  unfold MINYEAR, MAXYEAR in *.
  pose proof (days_in_month_le_31 y m).
  unfold fromisoformat, basic_format. cbn [year month day].
  change (strlen _) with 8. cbn [Z.eqb Pos.eqb orb].
  unfold parse_isoformat_date.
  rewrite parse_pad4 by lia.
  rewrite !peek_pad2_dash. cbv iota. rewrite peek_pad2_W.
  rewrite parse_pad2 by lia. cbn [andb]. rewrite parse_pad2 by lia.
  unfold new_date, check_date_args. unfold MINYEAR, MAXYEAR. now rewrite Hc.
Qed.

Lemma fromisoformat_length s :
  strlen s <> 7 -> strlen s <> 8 -> strlen s <> 10 ->
  is_ok (fromisoformat s) = false.
Proof.
  intros H7 H8 H10. unfold fromisoformat.
  apply Z.eqb_neq in H7, H8, H10. now rewrite H7, H8, H10.
Qed.

Lemma isoformat_length d : strlen (isoformat d) = 10.
Proof. reflexivity. Qed.

(** What the date check lets pass. For coordinates within range, the
    checks raise InvalidParameters with the message that names both date
    strings and the format YYYY-MM-DD exactly when [date.fromisoformat]
    refuses the start or the end string. It reads the YYYY-MM-DD form of
    every real day of the years 1 to 9999; it refuses every string whose
    UTF-8 encoding is not 7, 8 or 10 bytes long, and every string of ten
    bytes with dashes in the fifth and eighth place that is not such a
    form (2024-13-40 for one). It also reads the undelimited form
    YYYYMMDD of every real day, and week dates such as 2024-W01-1. *)
Lemma date_format_error_iff
  (latitude longitude : float) (start_date end_date : string) :
  latitude_in_range latitude = true ->
  longitude_in_range longitude = true ->
  (validate_parameters latitude longitude start_date end_date
   = Raise (InvalidParameters (date_format_message start_date end_date))
   <-> (is_ok (fromisoformat start_date) = false
        \/ is_ok (fromisoformat end_date) = false))
  /\ (forall s d, iso_calendar_date s d -> fromisoformat s = Ok d)
  /\ (forall s, strlen s <> 7 -> strlen s <> 8 -> strlen s <> 10 ->
                is_ok (fromisoformat s) = false)
  /\ (forall y1 y2 y3 y4 m1 m2 d1 d2 d,
         fromisoformat (dashed y1 y2 y3 y4 m1 m2 d1 d2) = Ok d ->
         iso_calendar_date (dashed y1 y2 y3 y4 m1 m2 d1 d2) d)
  /\ is_ok (fromisoformat "2024-13-40") = false
  /\ (forall d, valid_date d -> fromisoformat (basic_format d) = Ok d)
  /\ fromisoformat "20240101" = Ok (mkdate 2024 1 1)
  /\ fromisoformat "2024-W01-1" = Ok (mkdate 2024 1 1).
Proof.
  intros Hlat%latitude_in_not_out Hlon%longitude_in_not_out.
  split; [now apply validate_parameters_format_iff|].
  split; [intros s d [Hd ->]; now apply fromisoformat_isoformat|].
  split; [exact fromisoformat_length|].
  split; [exact fromisoformat_dashed|].
  split; [reflexivity|].
  split; [exact fromisoformat_basic|].
  split; reflexivity.
Qed.

(** The malformed start date of the specification. *)
Lemma date_format_error_iff_witness :
  latitude_in_range 51.5 = true
  /\ longitude_in_range 0 = true
  /\ validate_parameters 51.5 0 "2024-13-40" "2024-01-01"
     = Raise (InvalidParameters
                (date_format_message "2024-13-40" "2024-01-01")).
Proof.
  split; [reflexivity|]. split; [reflexivity|].
  apply (date_format_error_iff 51.5 0 "2024-13-40" "2024-01-01");
    try reflexivity.
  left. reflexivity.
Defined.

(** C4, at the undelimited start date 20240101 and the week date
    2024-W01-2 as end date, with coordinates within range. Neither string
    is of the form YYYY-MM-DD, the one format that the message of the
    date check names. The checks accept them all the same (as the days
    2024-01-01 and 2024-01-02), and the request carries the two strings
    as they were given. *)
Theorem undelimited_and_week_dates_reach_provider {pd : release} :
  let call :=
    get_historical_weather_at_given_coordinates
      example_api 51.5 0 "20240101" "2024-W01-2" default_fields in
  (forall d, ~ iso_calendar_date "20240101" d)
  /\ (forall d, ~ iso_calendar_date "2024-W01-2" d)
  /\ latitude_in_range 51.5 = true
  /\ longitude_in_range 0 = true
  /\ date_format_message "20240101" "2024-W01-2"
     = "Invalid start_date 20240101 or end_date 2024-W01-2 found. Please given the start and end dates in ISO format, i.e. YYYY-MM-DD"
  /\ validate_parameters 51.5 0 "20240101" "2024-W01-2"
     = Ok (mkdate 2024 1 1, mkdate 2024 1 2)
  /\ In (WeatherApi url (mkparams 51.5 0 "20240101" "2024-W01-2"
                                  default_fields)) (fst call)
  /\ is_ok (snd call) = true.
Proof.
  cbv zeta. split.
  { intros d [_ H]. apply (f_equal strlen) in H.
    rewrite isoformat_length in H. discriminate H. }
  split.
  { intros d [_ H]. unfold isoformat, pad4, pad2 in H.
    injection H as _ _ _ _ H _ _ _.
    exact (W_not_digit _ H). }
  split; [reflexivity|]. split; [reflexivity|]. split; [reflexivity|].
  split; [reflexivity|]. split.
  { destruct (call_valid example_api 51.5 0 "20240101" "2024-W01-2"
                default_fields (mkdate 2024 1 1, mkdate 2024 1 2) eq_refl)
      as [rest ->].
    apply in_or_app. right. right. left. reflexivity. }
  vm_compute. reflexivity.
Qed.

(** ** NaN coordinates *)

(** C10. A NaN compares false with every bound, so a NaN latitude with a
    longitude within range, and a NaN longitude with a latitude within
    range, pass the checks when the dates parse and are ordered; the call
    then goes on to the provider request, which carries the NaN. *)
Theorem nan_coordinates_pass
  {pd : release}
  (weather_api : string -> params -> result (list WeatherApiResponse))
  (latitude longitude : float) (start_date end_date : string) (s e : date)
  (fields : list string) :
  latitude_in_range latitude = true ->
  longitude_in_range longitude = true ->
  fromisoformat start_date = Ok s ->
  fromisoformat end_date = Ok e ->
  date_ltb e s = false ->
  ((nan <? -90)%float = false /\ (90 <? nan)%float = false
   /\ (nan <? 0)%float = false /\ (180 <? nan)%float = false)
  /\ validate_parameters nan longitude start_date end_date = Ok (s, e)
  /\ validate_parameters latitude nan start_date end_date = Ok (s, e)
  /\ In (WeatherApi url (mkparams nan longitude start_date end_date fields))
        (fst (get_historical_weather_at_given_coordinates
                weather_api nan longitude start_date end_date fields))
  /\ In (WeatherApi url (mkparams latitude nan start_date end_date fields))
        (fst (get_historical_weather_at_given_coordinates
                weather_api latitude nan start_date end_date fields)).
Proof.
  intros Hlat%latitude_in_not_out Hlon%longitude_in_not_out Hs He Hord.
  assert (validate_parameters nan longitude start_date end_date = Ok (s, e))
    as H1.
  { rewrite (validate_parameters_parsed nan longitude _ _ s e);
      auto. now rewrite Hord. }
  assert (validate_parameters latitude nan start_date end_date = Ok (s, e))
    as H2.
  { rewrite (validate_parameters_parsed latitude nan _ _ s e);
      auto. now rewrite Hord. }
  split; [repeat split|]. split; [exact H1|]. split; [exact H2|].
  split.
  - destruct (call_valid weather_api _ _ _ _ fields _ H1) as [rest ->].
    apply in_or_app. right. cbn. auto.
  - destruct (call_valid weather_api _ _ _ _ fields _ H2) as [rest ->].
    apply in_or_app. right. cbn. auto.
Qed.

Lemma nan_coordinates_pass_witness :
  latitude_in_range 51.5 = true
  /\ longitude_in_range 0 = true
  /\ validate_parameters nan 0 "2024-01-01" "2024-01-02"
     = Ok (mkdate 2024 1 1, mkdate 2024 1 2)
  /\ In (WeatherApi url (mkparams nan 0 "2024-01-01" "2024-01-02"
                                  default_fields))
        (fst (get_historical_weather_at_given_coordinates
                example_api nan 0 "2024-01-01" "2024-01-02" default_fields)).
Proof.
  pose proof (nan_coordinates_pass example_api 51.5 0
                "2024-01-01" "2024-01-02" (mkdate 2024 1 1) (mkdate 2024 1 2)
                default_fields eq_refl eq_refl eq_refl eq_refl eq_refl)
    as (_ & H1 & _ & H3 & _).
  split; [reflexivity|]. split; [reflexivity|].
  split; [exact H1 | exact H3].
Defined.

(** ** Order of the checks, and what a failed check leaves behind *)

(** C8, as the code has it. The checks run in the order latitude,
    longitude, date format, date order, and the first rule that fails
    decides the one exception raised. A call whose checks fail has built
    the cached session, the retrying session and the client, which the
    function does before it checks anything, and nothing else: no log
    record is written and the provider is not called. *)
Theorem checks_in_order_before_request
  {pd : release}
  (weather_api : string -> params -> result (list WeatherApiResponse))
  (latitude longitude : float) (start_date end_date : string)
  (fields : list string) :
  (latitude_out_of_range latitude = true ->
   validate_parameters latitude longitude start_date end_date
   = Raise (InvalidParameters latitude_message))
  /\ (latitude_out_of_range latitude = false ->
      longitude_out_of_range longitude = true ->
      validate_parameters latitude longitude start_date end_date
      = Raise (InvalidParameters longitude_message))
  /\ (latitude_out_of_range latitude = false ->
      longitude_out_of_range longitude = false ->
      is_ok (fromisoformat start_date) = false
      \/ is_ok (fromisoformat end_date) = false ->
      validate_parameters latitude longitude start_date end_date
      = Raise (InvalidParameters (date_format_message start_date end_date)))
  /\ (latitude_out_of_range latitude = false ->
      longitude_out_of_range longitude = false ->
      forall s e,
        fromisoformat start_date = Ok s ->
        fromisoformat end_date = Ok e ->
        date_ltb e s = true ->
        validate_parameters latitude longitude start_date end_date
        = Raise (InvalidParameters date_order_message))
  /\ (forall x,
         validate_parameters latitude longitude start_date end_date = Raise x ->
         get_historical_weather_at_given_coordinates
           weather_api latitude longitude start_date end_date fields
         = (client_setup, Raise x)
         /\ forall u p,
             ~ In (WeatherApi u p)
                  (fst (get_historical_weather_at_given_coordinates
                          weather_api latitude longitude start_date end_date
                          fields))).
Proof.
  split; [intros H; now apply validate_parameters_latitude_iff|].
  split; [intros H1 H2; now apply validate_parameters_longitude_iff|].
  split; [intros H1 H2 H3; now apply validate_parameters_format_iff|].
  split.
  - intros H1 H2 s e Hs He Hord.
    rewrite (validate_parameters_parsed _ _ _ _ s e H1 H2 Hs He).
    now rewrite Hord.
  - intros x Hx.
    rewrite (call_invalid weather_api _ _ _ _ fields x Hx).
    split; [reflexivity|].
    intros u p [H|[H|[H|[]]]]; discriminate H.
Qed.

(** Every rule broken at once: only the latitude is reported. *)
Lemma checks_in_order_before_request_witness :
  get_historical_weather_at_given_coordinates
    example_api 91 181 "2024-13-40" "2024-01-01" default_fields
  = (client_setup, Raise (InvalidParameters latitude_message)).
Proof.
  apply (checks_in_order_before_request example_api 91 181
           "2024-13-40" "2024-01-01" default_fields).
  reflexivity.
Defined.

(** C8, as stated, fails: a call refused for its latitude has had effects
    beyond the exception, the three of the client set-up. *)
Lemma failed_check_follows_client_setup :
  validate_parameters 91 0 "2024-01-01" "2024-01-02"
  = Raise (InvalidParameters latitude_message)
  /\ fst (get_historical_weather_at_given_coordinates
            example_api 91 0 "2024-01-01" "2024-01-02" default_fields)
     = [CachedSession ".cache" (-1); RetrySession 5 0.2%float; Client]
  /\ fst (get_historical_weather_at_given_coordinates
            example_api 91 0 "2024-01-01" "2024-01-02" default_fields)
     <> [].
Proof. repeat split. discriminate. Qed.

(** ** The returned frame *)

(** A frame comes back only from passed checks, an answered request and a
    reshaped first response. *)
Lemma call_returns_inv
  {pd : release}
  (weather_api : string -> params -> result (list WeatherApiResponse))
  latitude longitude start_date end_date fields df :
  snd (get_historical_weather_at_given_coordinates
         weather_api latitude longitude start_date end_date fields) = Ok df ->
  exists p r rs,
    validate_parameters latitude longitude start_date end_date = Ok p
    /\ weather_api url (mkparams latitude longitude start_date end_date fields)
       = Ok (r :: rs)
    /\ hourly_dataframe (Hourly r) = Ok df.
Proof.
  unfold get_historical_weather_at_given_coordinates.
  unfold bind, emit, lift, call_weather_api.
  destruct (validate_parameters _ _ _ _) as [p|x] eqn:Hp; [|discriminate].
  destruct (weather_api _ _) as [[|r rs]|x] eqn:Hr; cbn; try discriminate.
  intros H. exists p, r, rs. auto.
Qed.

Lemma nth_error_map_seq {A} (f : nat -> A) n i :
  nth_error (map f (seq 0 n)) i = if (i <? n)%nat then Some (f i) else None.
Proof.
  rewrite nth_error_map, nth_error_seq.
  destruct (i <? n)%nat; reflexivity.
Qed.

(** C1, at the request for the default fields in another order: the request
    carries the fields as asked, the provider answers in that order, and
    the frame still names its columns snowfall, wind_speed_10m,
    wind_gusts_10m in that fixed order, so the column snowfall holds the
    wind speeds and the column wind_speed_10m the snowfall. *)
Theorem swapped_fields_mislabelled {pd : release} :
  let call :=
    get_historical_weather_at_given_coordinates
      example_api 51.5 0 "2024-01-01" "2024-01-01" swapped_fields in
  let h := mkHourly 1704067200 1704074400 3600
                    (map archive_values swapped_fields) in
  let df := [("date", DatetimeIndex [instant 1704067200;
                                     instant 1704070800]);
             ("snowfall", ndarray (archive_values "wind_speed_10m"));
             ("wind_speed_10m", ndarray (archive_values "snowfall"));
             ("wind_gusts_10m", ndarray (archive_values "wind_gusts_10m"))] in
  In (WeatherApi url (mkparams 51.5 0 "2024-01-01" "2024-01-01"
                               swapped_fields)) (fst call)
  /\ (exists r, example_api url (mkparams 51.5 0 "2024-01-01" "2024-01-01"
                                          swapped_fields) = Ok [r]
                /\ Hourly r = h)
  /\ snd call = Ok df
  /\ column_names df <> "date" :: swapped_fields
  /\ ~ columns_follow_request swapped_fields h df.
Proof.
  cbv zeta. split.
  { destruct (call_valid example_api 51.5 0 "2024-01-01" "2024-01-01"
                swapped_fields (mkdate 2024 1 1, mkdate 2024 1 1) eq_refl)
      as [rest ->].
    apply in_or_app. right. right. left. reflexivity. }
  split; [eexists; split; reflexivity|].
  split; [vm_compute; reflexivity|].
  split; [vm_compute; discriminate|].
  intros [H _]. vm_compute in H. discriminate H.
Qed.

(** Whatever fields are asked for, a returned frame has the columns date,
    snowfall, wind_speed_10m, wind_gusts_10m, filled from the variables 0,
    1 and 2 of the response. *)
Lemma returned_columns_fixed
  {pd : release}
  (weather_api : string -> params -> result (list WeatherApiResponse))
  latitude longitude start_date end_date fields df :
  snd (get_historical_weather_at_given_coordinates
         weather_api latitude longitude start_date end_date fields) = Ok df ->
  column_names df = "date" :: default_fields.
Proof.
  intros (p & r & rs & _ & _ & H)%call_returns_inv.
  apply hourly_dataframe_inv in H.
  destruct H as (ts & c0 & c1 & c2 & col0 & col1 & col2
                 & _ & _ & _ & _ & -> & _).
  reflexivity.
Qed.

Lemma returned_columns_fixed_witness :
  exists df,
    snd (get_historical_weather_at_given_coordinates
           example_api 51.5 0 "2024-01-01" "2024-01-01" ["visibility"; "rain"; "snowfall"])
    = Ok df
    /\ column_names df
       = ["date"; "snowfall"; "wind_speed_10m"; "wind_gusts_10m"].
Proof.
  eexists. split; [vm_compute; reflexivity|].
  apply (returned_columns_fixed example_api 51.5 0 "2024-01-01" "2024-01-01"
           ["visibility"; "rain"; "snowfall"]).
  vm_compute. reflexivity.
Defined.

(** For the default fields the fixed names and positions are the requested
    ones: a frame returned then has a column per requested field, in
    request order, filled from what is read of the response at the field's
    position. *)
Theorem default_fields_follow_request
  {pd : release}
  (weather_api : string -> params -> result (list WeatherApiResponse))
  (latitude longitude : float) (start_date end_date : string)
  (r : WeatherApiResponse) (rs : list WeatherApiResponse) (df : DataFrame) :
  weather_api url (mkparams latitude longitude start_date end_date
                            default_fields) = Ok (r :: rs) ->
  snd (get_historical_weather_at_given_coordinates
         weather_api latitude longitude start_date end_date default_fields)
  = Ok df ->
  columns_follow_request default_fields (Hourly r) df.
Proof.
  intros Hr (p & r' & rs' & _ & Hr' & H)%call_returns_inv.
  rewrite Hr in Hr'. injection Hr' as <- <-.
  apply hourly_dataframe_inv in H.
  destruct H as (ts & c0 & c1 & c2 & col0 & col1 & col2
                 & _ & H0 & H1 & H2 & -> & [-> _] & [-> _] & [-> _]).
  split; [reflexivity|].
  intros [|[|[|i]]] f Hf; cbn in Hf.
  - injection Hf as <-. exists c0. split; [exact H0|reflexivity].
  - injection Hf as <-. exists c1. split; [exact H1|reflexivity].
  - injection Hf as <-. exists c2. split; [exact H2|reflexivity].
  - destruct i; discriminate Hf.
Qed.

Lemma default_fields_follow_request_witness :
  columns_follow_request default_fields
    (mkHourly 1704067200 1704074400 3600 (map archive_values default_fields))
    [("date", DatetimeIndex [instant 1704067200; instant 1704070800]);
     ("snowfall", ndarray (archive_values "snowfall"));
     ("wind_speed_10m", ndarray (archive_values "wind_speed_10m"));
     ("wind_gusts_10m", ndarray (archive_values "wind_gusts_10m"))].
Proof.
  exact (default_fields_follow_request example_api 51.5 0
           "2024-01-01" "2024-01-01"
           (mkResponse 51.5 0 25 "GMT" "GMT" 0
              (mkHourly 1704067200 1704074400 3600
                 (map archive_values default_fields)))
           [] _ eq_refl eq_refl).
Defined.

(** What is read at the positions of three variables that carry values
    is their arrays. *)
Lemma values_as_numpy_arrays h v0 v1 v2 more :
  variables h = with_values v0 :: with_values v1 :: with_values v2 :: more ->
  values_as_numpy h 0 = Ok (ndarray v0)
  /\ values_as_numpy h 1 = Ok (ndarray v1)
  /\ values_as_numpy h 2 = Ok (ndarray v2).
Proof.
  intros H. unfold values_as_numpy, Variables, bindr. rewrite H.
  repeat split.
Qed.

(** The dates of a frame over the instants [f 0], ..., [f (n - 1)]. *)
Lemma date_at_instants (f : nat -> Z) n c0 c1 c2 i :
  date_at [("date", DatetimeIndex (map (fun i => instant (f i)) (seq 0 n)));
           ("snowfall", c0); ("wind_speed_10m", c1); ("wind_gusts_10m", c2)]
          "date" i
  = if (i <? n)%nat then Some (instant (f i)) else None.
Proof.
  unfold date_at. cbn [getitem String.eqb Ascii.eqb Bool.eqb]. cbv iota.
  apply (nth_error_map_seq (fun i => instant (f i))).
Qed.




(** ** All of the table or none of it *)




(** ** The provider's side of the call *)

(** An exception of the provider leaves the function unchanged, after the
    set-up, the first log record and the one request; nothing is retried
    or logged after it. *)
Theorem provider_failure_propagates
  {pd : release}
  (weather_api : string -> params -> result (list WeatherApiResponse))
  (latitude longitude : float) (start_date end_date : string)
  (fields : list string) (p : date * date) (x : exn) :
  validate_parameters latitude longitude start_date end_date = Ok p ->
  weather_api url (mkparams latitude longitude start_date end_date fields)
  = Raise x ->
  get_historical_weather_at_given_coordinates
    weather_api latitude longitude start_date end_date fields
  = ((client_setup
      ++ [LoggerInfo LogCalling;
          WeatherApi url (mkparams latitude longitude start_date end_date
                                   fields)])%list,
     Raise x).
Proof.
  intros Hp Hx. unfold get_historical_weather_at_given_coordinates.
  unfold bind, emit, lift, call_weather_api. rewrite Hp, Hx. reflexivity.
Qed.

Lemma provider_failure_propagates_witness :
  snd (get_historical_weather_at_given_coordinates
         unreachable_api 51.5 0 "2024-01-01" "2024-01-02" default_fields)
  = Raise (OtherError "openmeteo_requests").
Proof.
  exact (f_equal snd
           (provider_failure_propagates unreachable_api 51.5 0
              "2024-01-01" "2024-01-02" default_fields
              (mkdate 2024 1 1, mkdate 2024 1 2)
              (OtherError "openmeteo_requests") eq_refl eq_refl)).
Defined.

(** An answered call makes exactly one request, carrying the five
    parameters as given, writes its six log records in order, and reshapes
    the first response only: the others do not matter. *)
Theorem answered_call_uses_first_response
  {pd : release}
  (weather_api : string -> params -> result (list WeatherApiResponse))
  (latitude longitude : float) (start_date end_date : string)
  (fields : list string) (p : date * date)
  (r : WeatherApiResponse) (rs : list WeatherApiResponse) :
  validate_parameters latitude longitude start_date end_date = Ok p ->
  weather_api url (mkparams latitude longitude start_date end_date fields)
  = Ok (r :: rs) ->
  get_historical_weather_at_given_coordinates
    weather_api latitude longitude start_date end_date fields
  = ((client_setup
      ++ [LoggerInfo LogCalling;
          WeatherApi url (mkparams latitude longitude start_date end_date
                                   fields);
          LoggerInfo LogQueryParameters;
          LoggerInfo (LogCoordinates (Latitude r) (Longitude r));
          LoggerInfo (LogElevation (Elevation r));
          LoggerInfo (LogTimezone (Timezone r) (TimezoneAbbreviation r));
          LoggerInfo (LogUtcOffset (UtcOffsetSeconds r))])%list,
     hourly_dataframe (Hourly r)).
Proof.
  intros Hp Hr. unfold get_historical_weather_at_given_coordinates.
  unfold bind, emit, lift, call_weather_api. rewrite Hp, Hr. reflexivity.
Qed.

Lemma answered_call_uses_first_response_witness :
  snd (get_historical_weather_at_given_coordinates
         example_api 51.5 0 "2024-01-01" "2024-01-01" default_fields)
  = hourly_dataframe
      (mkHourly 1704067200 1704074400 3600
         (map archive_values default_fields)).
Proof.
  exact (f_equal snd
           (answered_call_uses_first_response example_api 51.5 0
              "2024-01-01" "2024-01-01" default_fields
              (mkdate 2024 1 1, mkdate 2024 1 1)
              (mkResponse 51.5 0 25 "GMT" "GMT" 0
                 (mkHourly 1704067200 1704074400 3600
                    (map archive_values default_fields)))
              [] eq_refl eq_refl)).
Defined.

(** An answer with no location at all fails at [responses[0]]. *)
Theorem no_location_raises_IndexError
  {pd : release}
  (weather_api : string -> params -> result (list WeatherApiResponse))
  (latitude longitude : float) (start_date end_date : string)
  (fields : list string) (p : date * date) :
  validate_parameters latitude longitude start_date end_date = Ok p ->
  weather_api url (mkparams latitude longitude start_date end_date fields)
  = Ok [] ->
  snd (get_historical_weather_at_given_coordinates
         weather_api latitude longitude start_date end_date fields)
  = Raise IndexError.
Proof.
  intros Hp Hr. unfold get_historical_weather_at_given_coordinates.
  unfold bind, emit, lift, call_weather_api. rewrite Hp, Hr. reflexivity.
Qed.

Lemma no_location_raises_IndexError_witness :
  snd (get_historical_weather_at_given_coordinates
         silent_api 51.5 0 "2024-01-01" "2024-01-02" default_fields)
  = Raise IndexError.
Proof.
  exact (no_location_raises_IndexError silent_api 51.5 0
           "2024-01-01" "2024-01-02" default_fields
           (mkdate 2024 1 1, mkdate 2024 1 2) eq_refl eq_refl).
Defined.

(** * More of the function *)

(** ** The time axis in general *)

(** For an answered call whose hourly block has a positive step and an end
    after its start, whether or not the end is a whole number of steps
    away, on a time axis that nanosecond timestamps hold
    ([within_nanoseconds]): a frame is returned exactly when each of the
    three variables read carries as many values as there are steps
    starting before the end, or none at all; the frame then has that many
    rows, row [i] at the start plus [i] steps, every one of them before
    the end. *)
Theorem frame_spans_the_hours
  {pd : release}
  (weather_api : string -> params -> result (list WeatherApiResponse))
  (latitude longitude : float) (start_date end_date : string)
  (fields : list string) (p : date * date)
  (r : WeatherApiResponse) (rs : list WeatherApiResponse)
  (x0 x1 x2 : VariableWithValues) (more : list VariableWithValues) :
  validate_parameters latitude longitude start_date end_date = Ok p ->
  weather_api url (mkparams latitude longitude start_date end_date fields)
  = Ok (r :: rs) ->
  variables (Hourly r) = x0 :: x1 :: x2 :: more ->
  0 < Interval (Hourly r) ->
  Time (Hourly r) < TimeEnd (Hourly r) ->
  within_nanoseconds (Hourly r) ->
  let n := steps_before (Time (Hourly r)) (TimeEnd (Hourly r))
                        (Interval (Hourly r)) in
  let call := get_historical_weather_at_given_coordinates
                weather_api latitude longitude start_date end_date fields in
  (is_ok (snd call) = true
   <-> no_values_or n x0 /\ no_values_or n x1 /\ no_values_or n x2)
  /\ (forall df,
         snd call = Ok df ->
         nrows df = n
         /\ forall i, (i < n)%nat ->
                      date_at df "date" i
                      = Some (instant (Time (Hourly r)
                                       + Z.of_nat i * Interval (Hourly r)))
                      /\ Time (Hourly r) + Z.of_nat i * Interval (Hourly r)
                         < TimeEnd (Hourly r)).
Proof.
  intros Hp Hr Hv Hs Ht Hb n call.
  set (ts := map (fun i => instant (Time (Hourly r)
                                    + Z.of_nat i * Interval (Hourly r)))
                 (seq 0 n)).
  assert (List.length ts = n) as Lt
    by (unfold ts; now rewrite length_map, length_seq).
  assert (snd call
          = mkDataFrame [("date", DatetimeIndex ts);
                         ("snowfall", ValuesAsNumpy x0);
                         ("wind_speed_10m", ValuesAsNumpy x1);
                         ("wind_gusts_10m", ValuesAsNumpy x2)]) as Hcall.
  { unfold call.
    rewrite (call_answered weather_api _ _ _ _ fields p r rs Hp Hr).
    apply hourly_dataframe_eq;
      try (apply values_as_numpy_eq; now rewrite Hv).
    apply hourly_date_range_regular; auto. }
  rewrite Hcall, mkDataFrame_four, Lt.
  rewrite !fits_ValuesAsNumpy. split.
  - rewrite !no_values_or_true.
    destruct (has_no_values_or n x0), (has_no_values_or n x1),
      (has_no_values_or n x2); cbn; intuition congruence.
  - intros df.
    destruct (_ && _ && _)%bool; [|discriminate]. intros [= <-].
    split; [exact Lt|]. intros i Hi. split.
    + unfold ts.
      rewrite (date_at_instants
                 (fun i => Time (Hourly r) + Z.of_nat i * Interval (Hourly r))).
      now replace (i <? n)%nat with true by (symmetry; apply Nat.ltb_lt; lia).
    + pose proof (steps_before_spec _ _ _ Hs Ht) as Hn. cbv zeta in Hn.
      fold n in Hn. nia.
Qed.

Lemma frame_spans_the_hours_witness :
  is_ok (snd (get_historical_weather_at_given_coordinates
                late_api 51.5 0 "2024-01-01" "2024-01-01" default_fields))
  = true
  <-> no_values_or (steps_before 1704067200 1704072600 3600)
        (with_values (archive_values "snowfall"))
      /\ no_values_or (steps_before 1704067200 1704072600 3600)
           (with_values (archive_values "wind_speed_10m"))
      /\ no_values_or (steps_before 1704067200 1704072600 3600)
           (with_values (archive_values "wind_gusts_10m")).
Proof.
  refine (proj1 (frame_spans_the_hours late_api 51.5 0
                   "2024-01-01" "2024-01-01" default_fields
                   (mkdate 2024 1 1, mkdate 2024 1 1)
                   (mkResponse 51.5 0 25 "GMT" "GMT" 0
                      (mkHourly 1704067200 1704072600 3600
                         (map archive_values default_fields)))
                   [] (with_values (archive_values "snowfall"))
                   (with_values (archive_values "wind_speed_10m"))
                   (with_values (archive_values "wind_gusts_10m")) []
                   eq_refl eq_refl eq_refl eq_refl eq_refl _)).
  unfold within_nanoseconds. cbn. lia.
Defined.

(** ** The checks as a whole *)

(** The checks accept exactly the inputs that break none of the four
    rules, and return the two parsed dates. *)
Theorem checks_accept_iff
  (latitude longitude : float) (start_date end_date : string) (s e : date) :
  validate_parameters latitude longitude start_date end_date = Ok (s, e)
  <-> latitude_out_of_range latitude = false
      /\ longitude_out_of_range longitude = false
      /\ fromisoformat start_date = Ok s
      /\ fromisoformat end_date = Ok e
      /\ date_ltb e s = false.
Proof.
  rewrite validate_parameters_eq. split.
  - destruct (latitude_out_of_range latitude); [discriminate|].
    destruct (longitude_out_of_range longitude); [discriminate|].
    destruct (parse_dates_cases start_date end_date)
      as [(s' & e' & Hs & He & ->) | [_ ->]]; [|discriminate].
    destruct (date_ltb e' s') eqn:Hd; [discriminate|].
    intros [= -> ->]. auto.
  - intros (-> & -> & Hs & He & Hd).
    now rewrite (parse_dates_ok _ _ _ _ Hs He), Hd.
Qed.

(** Every exception of the checks is an InvalidParameters with one of the
    four messages: the ValueError of the date parser never escapes. *)
Theorem checks_raise_only_InvalidParameters
  (latitude longitude : float) (start_date end_date : string) (x : exn) :
  validate_parameters latitude longitude start_date end_date = Raise x ->
  x = InvalidParameters latitude_message
  \/ x = InvalidParameters longitude_message
  \/ x = InvalidParameters (date_format_message start_date end_date)
  \/ x = InvalidParameters date_order_message.
Proof.
  rewrite validate_parameters_eq.
  destruct (latitude_out_of_range latitude); [intros [= <-]; auto|].
  destruct (longitude_out_of_range longitude); [intros [= <-]; auto|].
  destruct (parse_dates_cases start_date end_date)
    as [(s & e & _ & _ & ->) | [_ ->]].
  - destruct (date_ltb e s); [intros [= <-]; auto 6|discriminate].
  - intros [= <-]. auto.
Qed.

Lemma checks_raise_only_InvalidParameters_witness :
  InvalidParameters (date_format_message "2024-13-40" "01/02/2024")
  = InvalidParameters latitude_message
  \/ InvalidParameters (date_format_message "2024-13-40" "01/02/2024")
     = InvalidParameters longitude_message
  \/ InvalidParameters (date_format_message "2024-13-40" "01/02/2024")
     = InvalidParameters (date_format_message "2024-13-40" "01/02/2024")
  \/ InvalidParameters (date_format_message "2024-13-40" "01/02/2024")
     = InvalidParameters date_order_message.
Proof.
  exact (checks_raise_only_InvalidParameters 51.5 0 "2024-13-40" "01/02/2024"
           _ eq_refl).
Defined.

(** * The batch script *)
Module DriverProperties.

Import Driver DriverWords.

Lemma written_app a b : written (a ++ b) = (written a ++ written b)%list.
Proof.
  induction a as [|x a IH]; [reflexivity|].
  destruct x; cbn; now rewrite ?IH.
Qed.

Lemma requested_app a b :
  requested (a ++ b) = (requested a ++ requested b)%list.
Proof.
  induction a as [|x a IH]; [reflexivity|].
  destruct x as [| |e| | |]; cbn; rewrite ?IH; try reflexivity.
  destruct e; cbn; now rewrite ?IH.
Qed.

Lemma written_InCall events : written (map InCall events) = [].
Proof. induction events; cbn; auto. Qed.

Lemma requested_InCall_setup :
  requested (map InCall client_setup) = [].
Proof. reflexivity. Qed.

(** The requests of one call: one when the checks pass, none otherwise. *)
Lemma requested_call
  {pd : release}
  (weather_api : string -> params -> result (list WeatherApiResponse))
  latitude longitude start_date end_date fields :
  requested (map InCall
               (fst (get_historical_weather_at_given_coordinates
                       weather_api latitude longitude start_date end_date
                       fields)))
  = if is_ok (validate_parameters latitude longitude start_date end_date)
    then [mkparams latitude longitude start_date end_date fields]
    else [].
Proof.
  destruct (validate_parameters latitude longitude start_date end_date)
    as [p|x] eqn:Hv; cbn [is_ok].
  - unfold get_historical_weather_at_given_coordinates.
    unfold bind, emit, lift, call_weather_api. rewrite Hv.
    destruct (weather_api _ _) as [[|r rs]|x]; reflexivity.
  - now rewrite (call_invalid weather_api _ _ _ _ fields x Hv).
Qed.

Lemma call_ok_valid
  {pd : release}
  (weather_api : string -> params -> result (list WeatherApiResponse))
  latitude longitude start_date end_date fields df :
  snd (get_historical_weather_at_given_coordinates
         weather_api latitude longitude start_date end_date fields) = Ok df ->
  is_ok (validate_parameters latitude longitude start_date end_date) = true.
Proof.
  intros (p & _ & _ & -> & _)%call_returns_inv. reflexivity.
Qed.

Section World.

Context {pd : release}.

Variable weather_api : string -> params -> result (list WeatherApiResponse).
Variable load_yaml : path -> result config.
Variable path_exists : list script_event -> path -> bool.
Variable makedirs : list script_event -> path -> result unit.
Variable to_csv : list script_event -> path -> DataFrame -> result unit.

Variables export_parent_folder start_date end_date : string.

Abbreviation body := (one_airport weather_api path_exists makedirs to_csv
                                  export_parent_folder start_date end_date).
Abbreviation loop := (for_each_airport weather_api path_exists makedirs to_csv
                                       export_parent_folder start_date end_date).
Abbreviation the_call latitude longitude :=
  (get_historical_weather_at_given_coordinates
     weather_api latitude longitude start_date end_date default_fields).
Abbreviation the_dir item := (save_dir export_parent_folder (fst item)).
Abbreviation the_file item :=
  (csv_path export_parent_folder (fst item) start_date end_date).
Abbreviation one_turn :=
  (turn weather_api export_parent_folder start_date end_date).
Abbreviation all_turns :=
  (turns weather_api export_parent_folder start_date end_date).

Lemma body_turn h item :
  exists t r, body h item = ((h ++ t)%list, r) /\ one_turn item t r.
Proof.
  destruct item as [name loc]. unfold one_airport.
  destruct (loc_latitude loc) as [lat|] eqn:Hlat; cbn [subscript].
  2:{ do 2 eexists. split; [reflexivity|]. now apply turn_no_latitude. }
  destruct (loc_longitude loc) as [lon|] eqn:Hlon; cbn [subscript].
  2:{ do 2 eexists. split; [reflexivity|].
      now apply turn_no_longitude with (latitude := lat). }
  destruct (get_historical_weather_at_given_coordinates _ _ _ _ _ _)
    as [events [df|e]] eqn:Hcall.
  2:{ do 2 eexists. split.
      - rewrite <- app_assoc. reflexivity.
      - now apply turn_call_raises with (latitude := lat) (longitude := lon). }
  destruct (path_exists _ _) eqn:Hex.
  - destruct (to_csv _ _ _) as [[]|e];
      do 2 eexists; (split; [rewrite <- !app_assoc; reflexivity|]);
      apply (turn_written weather_api export_parent_folder start_date end_date
               (name, loc) lat lon events df true); eauto.
  - destruct (makedirs _ _) as [[]|e].
    + destruct (to_csv _ _ _) as [[]|e];
        do 2 eexists; (split; [rewrite <- !app_assoc; reflexivity|]);
        apply (turn_written weather_api export_parent_folder start_date
                 end_date (name, loc) lat lon events df false); eauto.
    + do 2 eexists. split; [rewrite <- !app_assoc; reflexivity|].
      now apply turn_makedirs_raises
        with (latitude := lat) (longitude := lon) (df := df).
Qed.

Lemma loop_turns items : forall h,
  exists t r, loop h items = ((h ++ t)%list, r) /\ all_turns items t r.
Proof.
  induction items as [|item rest IH]; intros h.
  - exists [], (Returned tt). split; [now rewrite app_nil_r|constructor].
  - cbn [for_each_airport].
    destruct (body_turn h item) as (t & r & -> & Ht).
    destruct r as [[]|e].
    + destruct (IH (h ++ t)%list) as (t' & r' & -> & Ht').
      exists (t ++ t')%list, r'. split; [now rewrite app_assoc|].
      now apply turns_next.
    + exists t, (Raised e). split; [reflexivity|]. now apply turns_stop.
Qed.

(** What a turn writes and requests. *)
Lemma turn_written_files item t r :
  one_turn item t r ->
  match expected_file weather_api export_parent_folder start_date end_date
                      item with
  | Some f => written t = [f] \/ (written t = [] /\ r <> Returned tt)
  | None => written t = [] /\ r <> Returned tt
  end.
Proof.
  unfold expected_file.
  destruct 1 as [H1|lat H1 H2|lat lon ev e H1 H2 H3|lat lon ev df e H1 H2 H3
                |lat lon ev df answer r H1 H2 H3 Hr];
    rewrite ?H1, ?H2, ?H3; cbn [snd written];
    rewrite ?written_app, ?written_InCall; cbn [written app].
  - split; [reflexivity|discriminate].
  - split; [reflexivity|discriminate].
  - split; [reflexivity|discriminate].
  - right. split; [reflexivity|discriminate].
  - left. destruct answer; reflexivity.
Qed.

Lemma turn_returned_file item t :
  one_turn item t (Returned tt) ->
  exists f,
    expected_file weather_api export_parent_folder start_date end_date item
    = Some f
    /\ written t = [f].
Proof.
  intros H. apply turn_written_files in H.
  destruct (expected_file _ _ _ _ _) as [f|].
  - exists f. split; [reflexivity|].
    destruct H as [H|[_ H]]; [exact H|now destruct H].
  - now destruct H as [_ H].
Qed.

Lemma turn_requests item t r :
  one_turn item t r ->
  requested t = match expected_request start_date end_date item with
                | Some p => [p]
                | None => []
                end.
Proof.
  unfold expected_request.
  destruct 1 as [H1|lat H1 H2|lat lon ev e H1 H2 H3|lat lon ev df e H1 H2 H3
                |lat lon ev df answer r H1 H2 H3 Hr];
    rewrite ?H1, ?H2; try reflexivity.
  - cbn [requested].
    replace ev with (fst (the_call lat lon)) by now rewrite H3.
    rewrite requested_call.
    destruct (is_ok _); reflexivity.
  - cbn [requested]. rewrite requested_app.
    replace ev with (fst (the_call lat lon)) by now rewrite H3.
    rewrite requested_call.
    destruct (is_ok _); reflexivity.
  - cbn [requested]. rewrite requested_app.
    replace ev with (fst (the_call lat lon)) by now rewrite H3.
    rewrite requested_call.
    destruct (is_ok _); destruct answer; reflexivity.
Qed.

Lemma turn_returned_request item t :
  one_turn item t (Returned tt) ->
  exists p, expected_request start_date end_date item = Some p.
Proof.
  intros H. unfold expected_request.
  inversion H as [| | | |lat lon ev df answer r H1 H2 H3 Hr]; subst.
  rewrite H1, H2.
  assert (snd (the_call lat lon) = Ok df) as Hs by now rewrite H3.
  rewrite (call_ok_valid _ _ _ _ _ _ _ Hs). eauto.
Qed.

Lemma turns_written_prefix items t r :
  all_turns items t r ->
  exists n,
    map Some (written t)
    = map (expected_file weather_api export_parent_folder start_date end_date)
          (firstn n items).
Proof.
  induction 1 as [|item rest t e Ht|item rest t t' r Ht Hts [n IH]].
  - exists 0%nat. reflexivity.
  - apply turn_written_files in Ht.
    destruct (expected_file _ _ _ _ item) as [f|] eqn:Hf.
    + destruct Ht as [Ht|[Ht _]].
      * exists 1%nat. cbn. now rewrite Ht, Hf.
      * exists 0%nat. now rewrite Ht.
    + exists 0%nat. now rewrite (proj1 Ht).
  - apply turn_returned_file in Ht. destruct Ht as (f & Hf & Ht).
    exists (S n). rewrite written_app, map_app, Ht, IH. cbn. now rewrite Hf.
Qed.

Lemma turns_requested_prefix items t r :
  all_turns items t r ->
  exists n,
    map Some (requested t)
    = map (expected_request start_date end_date) (firstn n items).
Proof.
  induction 1 as [|item rest t e Ht|item rest t t' r Ht Hts [n IH]].
  - exists 0%nat. reflexivity.
  - apply turn_requests in Ht. rewrite Ht.
    destruct (expected_request _ _ item) as [p|] eqn:Hp.
    + exists 1%nat. cbn. now rewrite Hp.
    + exists 0%nat. reflexivity.
  - destruct (turn_returned_request _ _ Ht) as [p Hp].
    apply turn_requests in Ht. rewrite Hp in Ht.
    exists (S n). rewrite requested_app, map_app, Ht, IH. cbn. now rewrite Hp.
Qed.


Lemma turns_returned_all items t :
  all_turns items t (Returned tt) ->
  map Some (written t)
  = map (expected_file weather_api export_parent_folder start_date end_date)
        items
  /\ map Some (requested t)
     = map (expected_request start_date end_date) items.
Proof.
  remember (Returned tt) as r eqn:Hr.
  induction 1 as [|item rest t e Ht|item rest t t' r Ht Hts IH].
  - split; reflexivity.
  - discriminate Hr.
  - destruct (IH Hr) as [IH1 IH2].
    destruct (turn_returned_file _ _ Ht) as (f & Hf & Hw).
    destruct (turn_returned_request _ _ Ht) as [p Hp].
    apply turn_requests in Ht. rewrite Hp in Ht.
    rewrite written_app, requested_app, !map_app, Hw, Ht, IH1, IH2.
    cbn. now rewrite Hf, Hp.
Qed.

Lemma turns_raised_at items t r :
  all_turns items t r ->
  forall item,
    In item items ->
    expected_file weather_api export_parent_folder start_date end_date item
    = None ->
    exists e, r = Raised e.
Proof.
  induction 1 as [|item rest t e Ht|item rest t t' r Ht Hts IH];
    intros x Hin Hx.
  - destruct Hin.
  - eauto.
  - destruct Hin as [<-|Hin].
    + destruct (turn_returned_file _ _ Ht) as (f & Hf & _). congruence.
    + eauto.
Qed.

(** A turn that fails does so whatever the history is; the loop never
    reaches what follows it. *)
Lemma body_raises h item :
  expected_file weather_api export_parent_folder start_date end_date item
  = None ->
  exists e, snd (body h item) = Raised e.
Proof.
  intros Hx. destruct (body_turn h item) as (t & r & -> & Ht). cbn [snd].
  apply turn_written_files in Ht. rewrite Hx in Ht.
  destruct r as [[]|e]; [now destruct Ht as [_ Ht]|eauto].
Qed.

Lemma loop_stops before x : forall h after after',
  expected_file weather_api export_parent_folder start_date end_date x
  = None ->
  loop h (before ++ x :: after) = loop h (before ++ x :: after').
Proof.
  induction before as [|item rest IH]; intros h after after' Hx.
  - cbn [app for_each_airport].
    destruct (body_raises h x Hx) as [e He].
    destruct (body h x) as [h' r]. cbn [snd] in He. now rewrite He.
  - cbn [app for_each_airport].
    destruct (body h item) as [h' [[]|e]]; [|reflexivity].
    now apply IH.
Qed.

(** The guard read off a trace from left to right, [previous] being the
    event before the trace. *)
Fixpoint guarded_after
  (previous : option script_event) (trace : list script_event) : Prop :=
  match trace with
  | [] => True
  | e :: rest =>
      match e with
      | MakeDirs p => previous = Some (PathExists p false)
      | _ => True
      end
      /\ guarded_after (Some e) rest
  end.

Definition final
  (previous : option script_event) (trace : list script_event)
  : option script_event :=
  fold_left (fun _ e => Some e) trace previous.

Lemma guarded_after_app t : forall previous t',
  guarded_after previous (t ++ t')
  <-> guarded_after previous t /\ guarded_after (final previous t) t'.
Proof.
  induction t as [|e rest IH]; intros previous t'.
  - cbn. tauto.
  - cbn [app guarded_after final fold_left]. rewrite IH.
    unfold final. tauto.
Qed.

Lemma guarded_after_InCall events : forall previous,
  guarded_after previous (map InCall events).
Proof.
  induction events as [|e rest IH]; intros previous; cbn; auto.
Qed.

Lemma final_last previous t x : final previous (t ++ [x]) = Some x.
Proof. unfold final. now rewrite fold_left_app. Qed.

Lemma guarded_after_split pre p post :
  guarded_after None (pre ++ MakeDirs p :: post) ->
  exists before, pre = (before ++ [PathExists p false])%list.
Proof.
  rewrite guarded_after_app. intros [_ [H _]].
  destruct (exists_last (l := pre)) as (before & x & ->).
  - intros ->. discriminate H.
  - rewrite final_last in H. injection H as ->. now exists before.
Qed.

Lemma turn_guarded item t r previous :
  one_turn item t r -> guarded_after previous t.
Proof.
  destruct 1 as [H1|lat H1 H2|lat lon ev e H1 H2 H3|lat lon ev df e H1 H2 H3
                |lat lon ev df answer r H1 H2 H3 Hr];
    cbn [guarded_after]; (split; [exact I|]);
    try exact I; try apply guarded_after_InCall.
  - rewrite guarded_after_app. split; [apply guarded_after_InCall|].
    cbn. auto.
  - rewrite guarded_after_app. split; [apply guarded_after_InCall|].
    destruct answer; cbn; auto.
Qed.

Lemma turns_guarded items t r :
  all_turns items t r -> forall previous, guarded_after previous t.
Proof.
  induction 1 as [|item rest t e Ht|item rest t t' r Ht Hts IH];
    intros previous.
  - exact I.
  - eauto using turn_guarded.
  - rewrite guarded_after_app. split; [eauto using turn_guarded|apply IH].
Qed.


Lemma body_returns h item f :
  (forall h p, makedirs h p = Ok tt) ->
  (forall h p df, to_csv h p df = Ok tt) ->
  expected_file weather_api export_parent_folder start_date end_date item
  = Some f ->
  exists h', body h item = (h', Returned tt).
Proof.
  intros Hmk Hcsv. destruct item as [name loc].
  unfold expected_file, one_airport. cbn [fst snd].
  destruct (loc_latitude loc) as [lat|]; [|discriminate].
  destruct (loc_longitude loc) as [lon|]; [|discriminate].
  cbn [subscript].
  destruct (get_historical_weather_at_given_coordinates _ _ _ _ _ _)
    as [events [df|e]]; [|discriminate].
  intros _. rewrite Hcsv.
  destruct (path_exists _ _); [eauto|]. rewrite Hmk, Hcsv. eauto.
Qed.

Lemma loop_returns items : forall h,
  (forall h p, makedirs h p = Ok tt) ->
  (forall h p df, to_csv h p df = Ok tt) ->
  (forall item,
      In item items ->
      expected_file weather_api export_parent_folder start_date end_date item
      <> None) ->
  snd (loop h items) = Returned tt.
Proof.
  induction items as [|item rest IH]; intros h Hmk Hcsv Hall; [reflexivity|].
  cbn [for_each_airport].
  destruct (expected_file weather_api export_parent_folder start_date
                          end_date item) as [f|] eqn:Hf.
  2:{ now destruct (Hall item (or_introl eq_refl)). }
  destruct (body_returns h item f Hmk Hcsv Hf) as [h' ->].
  apply IH; auto. intros x Hx. apply Hall. now right.
Qed.

Lemma dates_rejected_checks latitude longitude :
  dates_rejected start_date end_date ->
  is_ok (validate_parameters latitude longitude start_date end_date) = false.
Proof.
  intros Hd. rewrite validate_parameters_eq.
  destruct (latitude_out_of_range latitude); [reflexivity|].
  destruct (longitude_out_of_range longitude); [reflexivity|].
  destruct Hd as [Hd|[Hd|(s & e & Hs & He & Hd)]].
  - now rewrite parse_dates_raise by auto.
  - now rewrite parse_dates_raise by auto.
  - rewrite (parse_dates_ok _ _ _ _ Hs He), Hd. reflexivity.
Qed.

Lemma dates_rejected_request item :
  dates_rejected start_date end_date ->
  expected_request start_date end_date item = None.
Proof.
  intros Hd. unfold expected_request.
  destruct (loc_latitude (snd item)) as [lat|]; [|reflexivity].
  destruct (loc_longitude (snd item)) as [lon|]; [|reflexivity].
  now rewrite dates_rejected_checks.
Qed.

Lemma dates_rejected_file item :
  dates_rejected start_date end_date ->
  expected_file weather_api export_parent_folder start_date end_date item
  = None.
Proof.
  intros Hd. unfold expected_file.
  destruct (loc_latitude (snd item)) as [lat|]; [|reflexivity].
  destruct (loc_longitude (snd item)) as [lon|]; [|reflexivity].
  destruct (snd (the_call lat lon)) as [df|e] eqn:Hc; [|reflexivity].
  apply call_ok_valid in Hc. now rewrite dates_rejected_checks in Hc.
Qed.

Lemma map_Some_all_None {A B} (f : A -> option B) (l : list B) (l' : list A) :
  (forall a, f a = None) -> map Some l = map f l' -> l = [].
Proof.
  intros Hf. destruct l as [|b l]; [reflexivity|].
  destruct l' as [|a l']; [discriminate|].
  cbn. rewrite Hf. discriminate.
Qed.

(** An expected file is a frame the call returned, with the four fixed
    columns, for coordinates within range. *)
Lemma expected_file_inv item f :
  expected_file weather_api export_parent_folder start_date end_date item
  = Some f ->
  exists latitude longitude,
    loc_latitude (snd item) = Some latitude
    /\ loc_longitude (snd item) = Some longitude
    /\ latitude_out_of_range latitude = false
    /\ longitude_out_of_range longitude = false
    /\ fst f = the_file item
    /\ snd (the_call latitude longitude) = Ok (snd f)
    /\ column_names (snd f) = "date" :: default_fields.
Proof.
  unfold expected_file.
  destruct (loc_latitude (snd item)) as [lat|]; [|discriminate].
  destruct (loc_longitude (snd item)) as [lon|]; [|discriminate].
  destruct (snd (the_call lat lon)) as [df|e] eqn:Hc; [|discriminate].
  intros [= <-]. exists lat, lon. cbn [fst snd].
  pose proof Hc as (p & r & rs & Hv & _ & Hd)%call_returns_inv.
  rewrite validate_parameters_eq in Hv.
  destruct (latitude_out_of_range lat); [discriminate|].
  destruct (longitude_out_of_range lon); [discriminate|].
  apply hourly_dataframe_inv in Hd.
  destruct Hd as (ts & c0 & c1 & c2 & col0 & col1 & col2
                  & _ & _ & _ & _ & -> & _).
  repeat split; first [reflexivity | exact Hc].
Qed.

Abbreviation script := (main weather_api load_yaml path_exists makedirs to_csv).

Abbreviation loaded airports :=
  (load_yaml (Div ConfigDirectory config_path)
   = Ok (mkconfig (Some export_parent_folder) (Some start_date)
                  (Some end_date) (Some airports))).

Lemma main_loaded airports :
  loaded airports -> script = loop opening airports.
Proof. intros H. unfold main. rewrite H. reflexivity. Qed.

Lemma main_turns airports :
  loaded airports ->
  exists t r, script = ((opening ++ t)%list, r) /\ all_turns airports t r.
Proof.
  intros H. rewrite (main_loaded _ H). apply loop_turns.
Qed.


(** ** What the batch script requests and writes *)

(** The files are written for the first airports of the configuration, in
    its order, one each and under the name made of the airport and the
    dates: each is the frame the call returned for that airport, so it has
    the columns date, snowfall, wind_speed_10m, wind_gusts_10m; no file is
    written for an airport after one that was skipped. *)
Theorem script_writes_a_prefix (airports : list (string * location)) :
  loaded airports ->
  (exists n,
      map Some (written (fst script))
      = map (expected_file weather_api export_parent_folder start_date
                           end_date)
            (firstn n airports))
  /\ (forall p df,
         In (p, df) (written (fst script)) ->
         column_names df = "date" :: default_fields).
Proof.
  intros H. destruct (main_turns _ H) as (t & r & -> & Ht). cbn [fst].
  rewrite written_app. cbn [opening written app].
  destruct (turns_written_prefix _ _ _ Ht) as [n Hn].
  split; [eauto|].
  intros p df Hin. apply (in_map Some) in Hin. rewrite Hn in Hin.
  apply in_map_iff in Hin. destruct Hin as (item & Hf & _).
  apply expected_file_inv in Hf.
  destruct Hf as (lat & lon & _ & _ & _ & _ & _ & _ & Hc). exact Hc.
Qed.

(** The requests are made for the first airports of the configuration, in
    its order, one each: with the airport's coordinates, the dates of the
    configuration and the default fields, and only for coordinates and
    dates that pass the checks. *)
Theorem script_requests_a_prefix (airports : list (string * location)) :
  loaded airports ->
  exists n,
    map Some (requested (fst script))
    = map (expected_request start_date end_date) (firstn n airports).
Proof.
  intros H. destruct (main_turns _ H) as (t & r & -> & Ht). cbn [fst].
  rewrite requested_app. cbn [opening requested app].
  exact (turns_requested_prefix _ _ _ Ht).
Qed.

(** When every airport has coordinates for which the call returns a frame,
    and the file system refuses nothing, the script ends normally, having
    made one request and written one file per airport, in the order of
    the configuration. *)
Theorem script_completes (airports : list (string * location)) :
  loaded airports ->
  (forall h p, makedirs h p = Ok tt) ->
  (forall h p df, to_csv h p df = Ok tt) ->
  (forall item,
      In item airports ->
      expected_file weather_api export_parent_folder start_date end_date item
      <> None) ->
  snd script = Returned tt
  /\ map Some (written (fst script))
     = map (expected_file weather_api export_parent_folder start_date
                          end_date) airports
  /\ map Some (requested (fst script))
     = map (expected_request start_date end_date) airports.
Proof.
  intros H Hmk Hcsv Hall.
  pose proof (loop_returns airports opening Hmk Hcsv Hall) as Hr.
  rewrite <- (main_loaded _ H) in Hr.
  destruct (main_turns _ H) as (t & r & E & Ht). rewrite E in Hr |- *.
  cbn [fst snd] in *. subst r.
  rewrite written_app, requested_app. cbn [opening written requested app].
  split; [reflexivity|]. now apply turns_returned_all.
Qed.

(** An airport for which the call returns no frame (a coordinate missing
    or out of range, dates refused, the provider failing, a malformed
    response) ends the script with an exception, and nothing that is
    configured after it has any influence: the run is that of the
    configuration cut after this airport. *)
Theorem script_stops_at_first_failure
  (before after : list (string * location)) (x : string * location) :
  loaded (before ++ x :: after)%list ->
  expected_file weather_api export_parent_folder start_date end_date x
  = None ->
  script
  = main weather_api
         (fun _ => Ok (mkconfig (Some export_parent_folder) (Some start_date)
                                (Some end_date) (Some (before ++ [x])%list)))
         path_exists makedirs to_csv
  /\ exists e, snd script = Raised e.
Proof.
  intros H Hx. split.
  - rewrite (main_loaded _ H). unfold main. cbn [subscript].
    now apply loop_stops.
  - destruct (main_turns _ H) as (t & r & -> & Ht). cbn [snd].
    apply (turns_raised_at _ _ _ Ht x); [|exact Hx].
    apply in_or_app. right. now left.
Qed.

(** With dates that the checks refuse (one does not parse, or the end is
    before the start), the script requests nothing from the provider and
    writes no file, whatever the airports are; with at least one airport
    it ends with an exception. *)
Theorem script_with_rejected_dates (airports : list (string * location)) :
  loaded airports ->
  dates_rejected start_date end_date ->
  requested (fst script) = []
  /\ written (fst script) = []
  /\ (airports <> [] -> exists e, snd script = Raised e).
Proof.
  intros H Hd. destruct (main_turns _ H) as (t & r & -> & Ht).
  cbn [fst snd]. rewrite requested_app, written_app.
  cbn [opening written requested app].
  destruct (turns_requested_prefix _ _ _ Ht) as [n Hn].
  destruct (turns_written_prefix _ _ _ Ht) as [m Hm].
  split; [|split].
  - eapply map_Some_all_None; [|exact Hn].
    intros item. now apply dates_rejected_request.
  - eapply map_Some_all_None; [|exact Hm].
    intros item. now apply dates_rejected_file.
  - destruct airports as [|item rest]; [now intros []|]. intros _.
    apply (turns_raised_at _ _ _ Ht item); [now left|].
    now apply dates_rejected_file.
Qed.

(** A run that ends normally has found, for every configured airport,
    both coordinates, each within the range of the checks or NaN (so no
    airport west of Greenwich), and has written the frame returned for it
    under the airport's file name. *)
Theorem script_returns_only_when_all_written
  (airports : list (string * location)) (item : string * location) :
  loaded airports ->
  snd script = Returned tt ->
  In item airports ->
  exists latitude longitude df,
    loc_latitude (snd item) = Some latitude
    /\ loc_longitude (snd item) = Some longitude
    /\ (latitude_in_range latitude = true \/ is_nan latitude = true)
    /\ (longitude_in_range longitude = true \/ is_nan longitude = true)
    /\ snd (the_call latitude longitude) = Ok df
    /\ In (the_file item, df) (written (fst script)).
Proof.
  intros H Hr Hin. destruct (main_turns _ H) as (t & r & E & Ht).
  rewrite E in Hr |- *. cbn [fst snd] in *. subst r.
  rewrite written_app. cbn [opening written app].
  destruct (turns_returned_all _ _ Ht) as [Hw _].
  apply (in_map (expected_file weather_api export_parent_folder start_date
                               end_date)) in Hin.
  rewrite <- Hw in Hin. apply in_map_iff in Hin.
  destruct Hin as (f & Hf & Hin). symmetry in Hf.
  destruct (expected_file_inv _ _ Hf)
    as (lat & lon & H1 & H2 & H3 & H4 & H5 & H6 & _).
  exists lat, lon, (snd f).
  split; [exact H1|]. split; [exact H2|].
  split; [now apply latitude_not_out_cases|].
  split; [now apply longitude_not_out_cases|].
  split; [exact H6|].
  rewrite <- H5. now destruct f.
Qed.

(** Every call of [os.makedirs] comes right after [os.path.exists] has
    answered False for the same directory: wherever the trace has a call
    of [makedirs], the event before it is that answer. *)
Theorem script_makes_missing_directories_only
  (airports : list (string * location))
  (pre post : list script_event) (p : path) :
  loaded airports ->
  fst script = (pre ++ MakeDirs p :: post)%list ->
  exists before, pre = (before ++ [PathExists p false])%list.
Proof.
  intros H E. destruct (main_turns _ H) as (t & r & E' & Ht).
  rewrite E' in E. cbn [fst] in E.
  apply (guarded_after_split pre p post). rewrite <- E.
  cbn [opening app guarded_after]. split; [exact I|]. split; [exact I|].
  now apply (turns_guarded _ _ _ Ht).
Qed.

End World.

Lemma script_writes_a_prefix_witness :
  (exists n,
      map Some (written (fst (example_main
                                (example_config "2024-01-01" "2024-01-01"
                                   [amsterdam; new_york; frankfurt]))))
      = map (expected_file example_api "data" "2024-01-01" "2024-01-01")
            (firstn n [amsterdam; new_york; frankfurt]))
  /\ (forall p df,
         In (p, df)
            (written (fst (example_main
                             (example_config "2024-01-01" "2024-01-01"
                                [amsterdam; new_york; frankfurt])))) ->
         column_names df = "date" :: default_fields).
Proof.
  exact (script_writes_a_prefix example_api
           (fun _ => Ok (example_config "2024-01-01" "2024-01-01"
                           [amsterdam; new_york; frankfurt]))
           nothing_exists makedirs_ok to_csv_ok
           "data" "2024-01-01" "2024-01-01"
           [amsterdam; new_york; frankfurt] eq_refl).
Defined.

Lemma script_requests_a_prefix_witness :
  exists n,
    map Some (requested (fst (example_main
                                (example_config "2024-01-01" "2024-01-01"
                                   [amsterdam; new_york; frankfurt]))))
    = map (expected_request "2024-01-01" "2024-01-01")
          (firstn n [amsterdam; new_york; frankfurt]).
Proof.
  exact (script_requests_a_prefix example_api
           (fun _ => Ok (example_config "2024-01-01" "2024-01-01"
                           [amsterdam; new_york; frankfurt]))
           nothing_exists makedirs_ok to_csv_ok
           "data" "2024-01-01" "2024-01-01"
           [amsterdam; new_york; frankfurt] eq_refl).
Defined.

Lemma script_completes_witness :
  snd (example_main (example_config "2024-01-01" "2024-01-01"
                       [amsterdam; frankfurt])) = Returned tt
  /\ map Some (written (fst (example_main
                                (example_config "2024-01-01" "2024-01-01"
                                   [amsterdam; frankfurt]))))
     = map (expected_file example_api "data" "2024-01-01" "2024-01-01")
           [amsterdam; frankfurt]
  /\ map Some (requested (fst (example_main
                                  (example_config "2024-01-01" "2024-01-01"
                                     [amsterdam; frankfurt]))))
     = map (expected_request "2024-01-01" "2024-01-01")
           [amsterdam; frankfurt].
Proof.
  apply (script_completes example_api
           (fun _ => Ok (example_config "2024-01-01" "2024-01-01"
                           [amsterdam; frankfurt]))
           nothing_exists makedirs_ok to_csv_ok
           "data" "2024-01-01" "2024-01-01" [amsterdam; frankfurt] eq_refl).
  - intros h p. reflexivity.
  - intros h p df. reflexivity.
  - intros item [<-|[<-|[]]]; vm_compute; discriminate.
Defined.

Lemma script_stops_at_first_failure_witness :
  expected_file example_api "data" "2024-01-01" "2024-01-01" new_york = None
  /\ example_main (example_config "2024-01-01" "2024-01-01"
                      ([amsterdam] ++ new_york :: [frankfurt])%list)
     = example_main (example_config "2024-01-01" "2024-01-01"
                       ([amsterdam] ++ [new_york])%list)
  /\ exists e,
       snd (example_main (example_config "2024-01-01" "2024-01-01"
                            ([amsterdam] ++ new_york :: [frankfurt])%list))
       = Raised e.
Proof.
  assert (expected_file example_api "data" "2024-01-01" "2024-01-01" new_york
          = None) as Hx by (vm_compute; reflexivity).
  split; [exact Hx|].
  exact (script_stops_at_first_failure example_api
           (fun _ => Ok (example_config "2024-01-01" "2024-01-01"
                           ([amsterdam] ++ new_york :: [frankfurt])%list))
           nothing_exists makedirs_ok to_csv_ok
           "data" "2024-01-01" "2024-01-01"
           [amsterdam] [frankfurt] new_york eq_refl Hx).
Defined.

Lemma script_with_rejected_dates_witness :
  dates_rejected "2024-02-01" "2024-01-01"
  /\ requested (fst (example_main
                       (example_config "2024-02-01" "2024-01-01"
                          [amsterdam; frankfurt]))) = []
  /\ written (fst (example_main
                     (example_config "2024-02-01" "2024-01-01"
                        [amsterdam; frankfurt]))) = []
  /\ ([amsterdam; frankfurt] <> [] ->
      exists e,
        snd (example_main (example_config "2024-02-01" "2024-01-01"
                             [amsterdam; frankfurt])) = Raised e).
Proof.
  assert (dates_rejected "2024-02-01" "2024-01-01") as Hd.
  { right. right. exists (mkdate 2024 2 1), (mkdate 2024 1 1).
    repeat split. }
  split; [exact Hd|].
  exact (script_with_rejected_dates example_api
           (fun _ => Ok (example_config "2024-02-01" "2024-01-01"
                           [amsterdam; frankfurt]))
           nothing_exists makedirs_ok to_csv_ok
           "data" "2024-02-01" "2024-01-01" [amsterdam; frankfurt]
           eq_refl Hd).
Defined.

Lemma script_returns_only_when_all_written_witness :
  snd (example_main (example_config "2024-01-01" "2024-01-01"
                       [amsterdam; frankfurt])) = Returned tt
  /\ exists latitude longitude df,
       loc_latitude (snd frankfurt) = Some latitude
       /\ loc_longitude (snd frankfurt) = Some longitude
       /\ (latitude_in_range latitude = true \/ is_nan latitude = true)
       /\ (longitude_in_range longitude = true \/ is_nan longitude = true)
       /\ snd (get_historical_weather_at_given_coordinates
                 example_api latitude longitude "2024-01-01" "2024-01-01"
                 default_fields) = Ok df
       /\ In (csv_path "data" (fst frankfurt) "2024-01-01" "2024-01-01", df)
             (written (fst (example_main
                              (example_config "2024-01-01" "2024-01-01"
                                 [amsterdam; frankfurt])))).
Proof.
  assert (snd (example_main (example_config "2024-01-01" "2024-01-01"
                               [amsterdam; frankfurt])) = Returned tt) as Hr
    by (vm_compute; reflexivity).
  split; [exact Hr|].
  exact (script_returns_only_when_all_written example_api
           (fun _ => Ok (example_config "2024-01-01" "2024-01-01"
                           [amsterdam; frankfurt]))
           nothing_exists makedirs_ok to_csv_ok
           "data" "2024-01-01" "2024-01-01" [amsterdam; frankfurt] frankfurt
           eq_refl Hr (or_intror (or_introl eq_refl))).
Defined.

(** The directory of the first airport: the fifteenth event of the run
    makes it, the fourteenth is the answer that it is missing. *)
Lemma script_makes_missing_directories_only_witness :
  let trace :=
    fst (example_main (example_config "2024-01-01" "2024-01-01"
                         [amsterdam; frankfurt])) in
  trace = (firstn 14 trace ++ MakeDirs (save_dir "data" "AMS")
                           :: skipn 15 trace)%list
  /\ exists before,
       firstn 14 trace
       = (before ++ [PathExists (save_dir "data" "AMS") false])%list.
Proof.
  cbv zeta.
  assert (fst (example_main (example_config "2024-01-01" "2024-01-01"
                               [amsterdam; frankfurt]))
          = (firstn 14 (fst (example_main
                               (example_config "2024-01-01" "2024-01-01"
                                  [amsterdam; frankfurt])))
             ++ MakeDirs (save_dir "data" "AMS")
             :: skipn 15 (fst (example_main
                                 (example_config "2024-01-01" "2024-01-01"
                                    [amsterdam; frankfurt]))))%list) as E
    by (vm_compute; reflexivity).
  split; [exact E|].
  exact (script_makes_missing_directories_only example_api
           (fun _ => Ok (example_config "2024-01-01" "2024-01-01"
                           [amsterdam; frankfurt]))
           nothing_exists makedirs_ok to_csv_ok
           "data" "2024-01-01" "2024-01-01" [amsterdam; frankfurt]
           _ _ (save_dir "data" "AMS") eq_refl E).
Defined.

End DriverProperties.

(** * The example scripts *)

(** ** The forecast example *)

Lemma visibility_dataframe_eq {pd : release} h c0 ts :
  values_as_numpy h 0 = Ok c0 ->
  hourly_date_range h = Ok ts ->
  ForecastExample.visibility_dataframe h
  = if fits (List.length ts) c0
    then Ok [("date", DatetimeIndex ts);
             ("visibility", broadcast (List.length ts) c0)]
    else Raise (ValueError "All arrays must be of the same length").
Proof.
  intros H0 Ht. unfold ForecastExample.visibility_dataframe, bindr.
  rewrite H0, Ht. unfold mkDataFrame, fits.
  destruct c0;
    cbn [setitem String.eqb Ascii.eqb Bool.eqb filter forallb snd fst negb
         is_scalar len map broadcast orb];
    rewrite ?andb_true_r; reflexivity.
Qed.

(** When the provider answers the example's request with an hourly block
    of positive step that ends after it starts, on a time axis that
    nanosecond timestamps hold ([within_nanoseconds]), the example prints
    a frame exactly when the first variable carries as many values as
    there are steps starting before the end, or none at all; the frame
    has the columns date and visibility and that many rows, row [i]
    holding the start plus [i] steps and what was read of the first
    variable; and printing it is the last thing the example does before
    it ends: imported, normally; run as a script, with the NameError of
    the block under [__main__]. *)
Theorem forecast_example_frame
  {pd : release}
  (weather_api
   : string -> ForecastExample.forecast_params
     -> result (list WeatherApiResponse))
  (name : string)
  (r : WeatherApiResponse) (rs : list WeatherApiResponse)
  (x0 : VariableWithValues) (more : list VariableWithValues) :
  weather_api ForecastExample.forecast_url ForecastExample.forecast_request
  = Ok (r :: rs) ->
  variables (Hourly r) = x0 :: more ->
  0 < Interval (Hourly r) ->
  Time (Hourly r) < TimeEnd (Hourly r) ->
  within_nanoseconds (Hourly r) ->
  let n := steps_before (Time (Hourly r)) (TimeEnd (Hourly r))
                        (Interval (Hourly r)) in
  let run := ForecastExample.example weather_api name in
  ((exists df, In (ForecastExample.Print (ForecastExample.Frame df)) (fst run))
   <-> no_values_or n x0)
  /\ (forall df,
         In (ForecastExample.Print (ForecastExample.Frame df)) (fst run) ->
         column_names df = ["date"; "visibility"]
         /\ nrows df = n
         /\ (forall i, (i < n)%nat ->
                       date_at df "date" i
                       = Some (instant (Time (Hourly r)
                                        + Z.of_nat i * Interval (Hourly r))))
         /\ getitem df "visibility" = Some (broadcast n (ValuesAsNumpy x0))
         /\ last (fst run) (ForecastExample.Setup Client)
            = ForecastExample.Print (ForecastExample.Frame df)
         /\ snd run = if String.eqb name "__main__"
                      then Raise (NameError "dt")
                      else Ok df).
Proof.
  intros Hr Hv Hs Ht Hb n run.
  set (ts := map (fun i => instant (Time (Hourly r)
                                    + Z.of_nat i * Interval (Hourly r)))
                 (seq 0 n)).
  assert (List.length ts = n) as Lt
    by (unfold ts; now rewrite length_map, length_seq).
  assert (ForecastExample.visibility_dataframe (Hourly r)
          = if has_no_values_or n x0
            then Ok [("date", DatetimeIndex ts);
                     ("visibility", broadcast n (ValuesAsNumpy x0))]
            else Raise (ValueError "All arrays must be of the same length"))
    as Hd.
  { rewrite <- fits_ValuesAsNumpy, <- Lt. apply visibility_dataframe_eq.
    - apply values_as_numpy_eq. now rewrite Hv.
    - apply hourly_date_range_regular; auto. }
  unfold run, ForecastExample.example, ForecastExample.module_level.
  rewrite Hr. cbn [bindr first_response]. rewrite Hd.
  rewrite no_values_or_true.
  destruct (has_no_values_or n x0); destruct (String.eqb name "__main__");
    cbn [fst snd bindr ForecastExample.main_block app].
  all: split.
  all: try (split; [reflexivity | intros _; eexists; cbn [In];
                                  do 8 right; left; reflexivity]).
  all: try (split; [|discriminate]; intros [df H]; cbn [In] in H;
            repeat (destruct H as [H|H]; try discriminate H); destruct H).
  all: intros df H; cbn [In] in H;
    repeat (destruct H as [H|H]; try discriminate H);
    try contradiction.
  all: injection H as <-.
  all: split; [reflexivity|]; split; [exact Lt|]; split; [|repeat split].
  all: intros i Hi; unfold date_at;
    cbn [getitem String.eqb Ascii.eqb Bool.eqb]; cbv iota; unfold ts;
    rewrite (nth_error_map_seq
               (fun i => instant (Time (Hourly r)
                                  + Z.of_nat i * Interval (Hourly r))));
    now replace (i <? n)%nat with true by (symmetry; apply Nat.ltb_lt; lia).
Qed.

(** ** The plain HTTP script *)

Section Days.

Variable V : Type.

Lemma print_days_complete (before rest : list (PlainRequest.day V)) :
  (forall d, In d before -> PlainRequest.missing_key V d = None) ->
  PlainRequest.print_days V (before ++ rest)
  = ((PlainRequest.lines_of V before
      ++ fst (PlainRequest.print_days V rest))%list,
     snd (PlainRequest.print_days V rest)).
Proof.
  induction before as [|d before IH]; intros Hall.
  - cbn. now destruct (PlainRequest.print_days V rest).
  - pose proof (Hall d (or_introl eq_refl)) as Hd.
    unfold PlainRequest.missing_key in Hd.
    cbn [app PlainRequest.print_days PlainRequest.lines_of flat_map].
    unfold PlainRequest.day_line.
    destruct (getitem d "date") as [date|]; [|discriminate].
    destruct (getitem d "Snowfall") as [snowfall|]; [|discriminate].
    destruct (getitem d "Wind Speed (10 m)") as [windspeed|]; [|discriminate].
    cbn [Driver.subscript].
    rewrite IH by (intros x Hx; apply Hall; now right).
    reflexivity.
Qed.

Lemma print_days_missing (d : PlainRequest.day V) rest key :
  PlainRequest.missing_key V d = Some key ->
  PlainRequest.print_days V (d :: rest)
  = ([], Driver.Raised (Driver.KeyError key)).
Proof.
  unfold PlainRequest.missing_key. cbn [PlainRequest.print_days].
  destruct (getitem d "date") as [date|]; [|now intros [= <-]].
  destruct (getitem d "Snowfall") as [snowfall|]; [|now intros [= <-]].
  destruct (getitem d "Wind Speed (10 m)") as [windspeed|];
    [discriminate|now intros [= <-]].
Qed.

Variable requests_get
  : string -> PlainRequest.request_params -> result (PlainRequest.response V).

(** With the status 200 and a body whose key data holds the days: the days
    are printed in order, one line each with the day's date, snowfall and
    wind speed, up to the first day that lacks one of these keys; the
    script ends normally when there is no such day, and otherwise with the
    KeyError of the first key that day lacks, the lines of the days before
    it being printed. *)
Theorem days_printed_up_to_first_incomplete
  (r : PlainRequest.response V)
  (data : dict (list (PlainRequest.day V)))
  (before rest : list (PlainRequest.day V)) :
  requests_get PlainRequest.API_URL PlainRequest.request = Ok r ->
  PlainRequest.status_code V r = 200 ->
  PlainRequest.json V r = Ok data ->
  getitem data "data" = Some (before ++ rest)%list ->
  (forall d, In d before -> PlainRequest.missing_key V d = None) ->
  match rest with
  | [] =>
      PlainRequest.script V requests_get
      = (PlainRequest.Get PlainRequest.API_URL PlainRequest.request
         :: map PlainRequest.PrintLine (PlainRequest.lines_of V before),
         Driver.Returned tt)
      /\ List.length (PlainRequest.lines_of V before) = List.length before
  | d :: _ =>
      forall key,
        PlainRequest.missing_key V d = Some key ->
        PlainRequest.script V requests_get
        = (PlainRequest.Get PlainRequest.API_URL PlainRequest.request
           :: map PlainRequest.PrintLine (PlainRequest.lines_of V before),
           Driver.Raised (Driver.KeyError key))
  end.
Proof.
  intros Hr Hs Hj Hd Hall. unfold PlainRequest.script.
  rewrite Hr, Hs, Hj, Hd. cbn [Z.eqb Pos.eqb Driver.subscript].
  rewrite (print_days_complete before rest Hall).
  destruct rest as [|d rest].
  - cbn [PlainRequest.print_days fst snd]. rewrite app_nil_r.
    split; [reflexivity|].
    clear -Hall. induction before as [|d before IH]; [reflexivity|].
    pose proof (Hall d (or_introl eq_refl)) as Hd.
    unfold PlainRequest.missing_key in Hd.
    cbn [PlainRequest.lines_of flat_map]. unfold PlainRequest.day_line.
    destruct (getitem d "date"); [|discriminate].
    destruct (getitem d "Snowfall"); [|discriminate].
    destruct (getitem d "Wind Speed (10 m)"); [|discriminate].
    cbn [app List.length]. f_equal. apply IH.
    intros x Hx. apply Hall. now right.
  - intros key Hk. rewrite (print_days_missing d rest key Hk).
    cbn [fst snd]. now rewrite app_nil_r.
Qed.

(** With any other status the script prints the one line with the status
    and ends normally: the body is never read, so it may be anything. *)
Theorem other_status_prints_one_line (r : PlainRequest.response V) :
  requests_get PlainRequest.API_URL PlainRequest.request = Ok r ->
  PlainRequest.status_code V r <> 200 ->
  PlainRequest.script V requests_get
  = ([PlainRequest.Get PlainRequest.API_URL PlainRequest.request;
      PlainRequest.PrintLine
        (PlainRequest.ErrorLine (PlainRequest.status_code V r))],
     Driver.Returned tt).
Proof.
  intros Hr Hs. unfold PlainRequest.script. rewrite Hr.
  apply Z.eqb_neq in Hs. now rewrite Hs.
Qed.

End Days.

(** Run as a script on two values over two hours. *)
Lemma forecast_example_frame_witness :
  (exists df,
      In (ForecastExample.Print (ForecastExample.Frame df))
         (fst (ForecastExample.example ForecastExample.hazy_api "__main__")))
  <-> no_values_or (steps_before 1704067200 1704072600 3600)
                   (with_values [24140; 18000]%float).
Proof.
  refine (proj1 (forecast_example_frame ForecastExample.hazy_api "__main__"
                   (mkResponse 52.52 13.41 38 "GMT" "GMT" 0
                      (mkHourly 1704067200 1704072600 3600
                         [[24140; 18000]%float]))
                   [] (with_values [24140; 18000]%float) []
                   eq_refl eq_refl eq_refl eq_refl _)).
  unfold within_nanoseconds. cbn. lia.
Defined.

Lemma days_printed_up_to_first_incomplete_witness :
  PlainRequest.script Z PlainRequest.three_days
  = (PlainRequest.Get PlainRequest.API_URL PlainRequest.request
     :: map PlainRequest.PrintLine
          [PlainRequest.DayLine 1 0 12; PlainRequest.DayLine 2 3 9],
     Driver.Raised (Driver.KeyError "Snowfall")).
Proof.
  refine (days_printed_up_to_first_incomplete Z PlainRequest.three_days
            (PlainRequest.mkresponse Z 200 _) _
            [[("date", 1); ("Snowfall", 0); ("Wind Speed (10 m)", 12)];
             [("date", 2); ("Snowfall", 3); ("Wind Speed (10 m)", 9)]]
            [[("date", 3); ("Wind Speed (10 m)", 7)]]
            eq_refl eq_refl eq_refl eq_refl _ "Snowfall" eq_refl).
  intros d [<-|[<-|[]]]; reflexivity.
Defined.

Lemma other_status_prints_one_line_witness :
  PlainRequest.script Z PlainRequest.refused
  = ([PlainRequest.Get PlainRequest.API_URL PlainRequest.request;
      PlainRequest.PrintLine (PlainRequest.ErrorLine 404)],
     Driver.Returned tt).
Proof.
  apply (other_status_prints_one_line Z PlainRequest.refused
           (PlainRequest.mkresponse Z 404
              (Raise (ValueError "Expecting value")))).
  - reflexivity.
  - discriminate.
Defined.
